(** * mailcheck: a shallow embedding of [main.go]

    The program checks whether a mailbox is likely to exist: it takes the
    domain of an address ([extractDomain]), asks a resolver for the domain's
    MX hosts ([lookupMX]) and talks SMTP to one of them up to [RCPT TO]
    ([checkMailbox]).

    Go strings are byte strings and are modelled by [string]; Go's [int] is
    modelled by [Z] (no arithmetic that could wrap is involved); a Go
    [error] value is [option error], with [None] for [nil].

    [extractDomain] is a pure function.  [lookupMX] takes the resolver it
    calls as an argument.  [checkMailbox] runs in a state monad over the
    world outside the program: the connections it opened, the ones it
    closed, and the trace of what it dialled, wrote, closed and logged.  The
    calls it makes into [net], [net/textproto] and [net/smtp] are modelled
    after those packages, each under the name it has there; how the remote
    hosts behave is a parameter.  [main] runs in the same monad and ends in
    the status the process exits with. *)

From Stdlib Require Import String Ascii List ZArith Bool Lia Arith DecimalString.
Import ListNotations.

Local Open Scope string_scope.
Local Open Scope list_scope.

(** ** Errors *)

(** The error values the program can hold.  [New] and [Wrap] are the two
    constructors of [github.com/pkg/errors] that [main.go] calls; the others
    are the errors produced by the libraries underneath. *)
Inductive error : Type :=
| New (msg : string)                       (* errors.New(msg) *)
| Wrap (cause : error) (msg : string)      (* errors.Wrap(cause, msg) *)
| NetError (what : string)                 (* net.OpError, io.EOF, DNS errors *)
| ProtocolError (msg : string)             (* textproto.ProtocolError *)
| ReplyError (code : Z) (msg : string).    (* textproto.Error{Code, Msg} *)

(** ** [strings.Split] and [strings.Count] with a one-byte separator *)

Module Strings.

(** [strings.Count(s, sep)] for a separator of one byte. *)
Fixpoint Count (s : string) (sep : ascii) : nat :=
  match s with
  | EmptyString => 0
  | String c rest => (if Ascii.eqb c sep then 1 else 0) + Count rest sep
  end.

(** [strings.Split(s, sep)] for a separator of one byte: the substrings
    between the separators, in order; [Count s sep + 1] of them. *)
Fixpoint Split (s : string) (sep : ascii) : list string :=
  match s with
  | EmptyString => [EmptyString]
  | String c rest =>
      if Ascii.eqb c sep then EmptyString :: Split rest sep
      else match Split rest sep with
           | p :: ps => String c p :: ps
           | [] => [String c EmptyString]
           end
  end.

(** [strings.Cut(s, sep)] for a separator of one byte: the text before the
    first separator and the text after it; all of [s] and the empty string
    when [s] has no separator. *)
Fixpoint Cut (s : string) (sep : ascii) : string * string :=
  match s with
  | EmptyString => (EmptyString, EmptyString)
  | String c rest =>
      if Ascii.eqb c sep then (EmptyString, rest)
      else let '(before, after) := Cut rest sep in (String c before, after)
  end.

End Strings.

(** ** [extractDomain] (main.go, lines 49-56) *)

Definition at_sign : ascii := "@"%char.

Definition extractDomain (email : string) : string * option error :=
  let parts := Strings.Split email at_sign in
  if negb (length parts =? 2)%nat then
    ("", Some (New "invalid email address"))
  else
    (nth 1 parts "", None).

(** ** [lookupMX] (main.go, lines 36-47) *)

(** [net.MX] *)
Record MX : Type := { Host : string; Pref : Z }.

(** The resolver [dnsResolver.LookupMX] is the environment of [lookupMX]:
    it answers a domain with the records it found and an error value. *)
Definition Resolver : Type := string -> list MX * option error.

Definition lookupMX (LookupMX : Resolver) (domain : string)
  : list string * option error :=
  let '(mxRecords, err) := LookupMX domain in
  match err with
  | Some e => ([], Some e)
  | None =>
      (fold_left (fun servers mx => servers ++ [Host mx]) mxRecords [], None)
  end.

(** ** [dnsResolver] (main.go, lines 28-33)

    The resolver that [main] hands to [lookupMX] is [net]'s own ([PreferGo])
    asking the name server at 1.1.1.1. *)

(** What the name server answers to the MX query for a domain, as the
    resolver reads it. *)
Inductive dns_answer : Type :=
| QueryFailed (cause : error)        (* no answer, or an answer with an
                                        error code *)
| Answer (records : list MX) (invalid : nat).
                                     (* the MX records whose host is a
                                        domain name, by preference, and the
                                        number of the other MX records *)

Definition Nameserver : Type := string -> dns_answer.

(** [dnsResolver.LookupMX(ctx, domain)].  An answer without any MX record
    is the error "no such host"; records whose host is not a domain name
    are dropped and reported by an error that comes with the others. *)
Definition dnsResolver (ns : Nameserver) : Resolver :=
  fun domain =>
    match ns domain with
    | QueryFailed e => ([], Some e)
    | Answer records invalid =>
        if (length records + invalid =? 0)%nat then
          ([], Some (NetError "no such host"))
        else if (invalid =? 0)%nat then (records, None)
        else
          (records,
           Some (NetError
             "DNS response contained records which contain invalid names"))
    end.

(** ** The world outside the program

    [checkMailbox] talks to mail servers through [net], [net/textproto] and
    [net/smtp].  The world below is what those packages act on: the
    connections opened so far, which of them have been closed, and the
    history of what the program did to the network, newest event first. *)

(** The SMTP commands the program can put on a connection: the format
    string of the call and its argument.  [MAIL_FROM_ESMTP] is the sender
    declaration to which [smtp.Client.Mail] has appended the parameters of
    the extensions the server announced; [params] is what was appended. *)
Inductive command : Type :=
| EHLO (localName : string)        (* "EHLO %s" *)
| HELO (localName : string)        (* "HELO %s" *)
| MAIL_FROM (from : string)        (* "MAIL FROM:<%s>" *)
| MAIL_FROM_ESMTP (from params : string)
                                   (* "MAIL FROM:<%s>" ++ params *)
| RCPT_TO (rcpt : string)          (* "RCPT TO:<%s>" *)
| QUIT.                            (* "QUIT" *)

Definition LF : ascii := "010"%char.
Definition CR : ascii := "013"%char.

(** What reading one response from a connection can give.  The reader
    hands back a line that the connection cut short as the line it is
    ([bufio.Reader.ReadLine] drops the error when it has read some bytes):
    such a response is a [Line], a [ShortLine] or a [BadCode], not a
    [ReadFailed].  The message of a [Line] is the text after the code; for
    a response of several lines it is their texts joined by a line feed, as
    [ReadResponse] returns them. *)
Inductive reply : Type :=
| ReadFailed (cause : error)              (* the read failed: no line *)
| ShortLine (line : string)               (* no "ddd " or "ddd-" prefix *)
| BadCode (line : string)                 (* first three bytes: no number *)
| Line (code : Z) (message : string).     (* "ddd message" *)

(** How the remote end of an address behaves. *)
Record Server : Type := {
  refuses : option error;                 (* the error of the connect, if any *)
  greeting : reply;                       (* read before any command *)
  rejects_write : command -> option error;(* the error of writing a line *)
  answers : command -> reply              (* read after a command *)
}.

(** The network, by ["host:port"] address. *)
Definition Network : Type := string -> Server.

(** [net.Conn]: a descriptor and the remote end. *)
Record Conn : Type := { fd : nat; peer : Server }.

(** A value passed to a logrus format verb. *)
Inductive logarg : Type :=
| AStr (s : string) | AErr (e : error) | AInt (n : Z).

Inductive level : Type := DebugLevel | InfoLevel | WarnLevel | ErrorLevel.

Inductive event : Type :=
| Dialed (addr : string) (got : option nat)  (* a connect, and its descriptor *)
| Sent (c : nat) (line : command)            (* a command written to
                                                descriptor c, in one write *)
| Close_called (c : nat)                     (* conn.Close() on descriptor c *)
| Logged (lvl : level) (format : string) (args : list logarg).

Record World : Type := {
  opened : nat;              (* descriptors handed out so far: 0 .. opened-1 *)
  closed : list nat;         (* descriptors that have been closed *)
  trace : list event         (* newest first *)
}.

Definition start : World := {| opened := 0; closed := []; trace := [] |}.

(** ** The state monad of the embedding *)

Definition M (A : Type) : Type := World -> A * World.

Definition ret {A} (a : A) : M A := fun w => (a, w).

Definition bind {A B} (m : M A) (k : A -> M B) : M B :=
  fun w => let '(a, w') := m w in k a w'.

Notation "x <- m ;; k" := (bind m (fun x => k))
  (at level 61, m at next level, right associativity).
Notation "' p <- m ;; k" := (bind m (fun x => match x with p => k end))
  (at level 61, p pattern, m at next level, right associativity).
Notation "m ;;; k" := (bind m (fun _ => k))
  (at level 61, right associativity).

Definition emit (e : event) : M unit :=
  fun w => (tt, {| opened := opened w; closed := closed w;
                   trace := e :: trace w |}).

Definition is_closed (c : nat) (w : World) : bool :=
  existsb (Nat.eqb c) (closed w).

(** The line most recently written to descriptor [c]. *)
Fixpoint last_sent (c : nat) (t : list event) : option command :=
  match t with
  | [] => None
  | Sent c' line :: t' => if Nat.eqb c' c then Some line else last_sent c t'
  | _ :: t' => last_sent c t'
  end.

Definition ErrClosed : error := NetError "use of closed network connection".

(** ** Package [net] *)

Module Net.

(** [defaultDialer.Dial("tcp", addr)] *)
Definition Dial (network : Network) (addr : string) : M (Conn + error) :=
  fun w =>
    let sv := network addr in
    match refuses sv with
    | Some e =>
        (inr e, {| opened := opened w; closed := closed w;
                   trace := Dialed addr None :: trace w |})
    | None =>
        (inl {| fd := opened w; peer := sv |},
         {| opened := S (opened w); closed := closed w;
            trace := Dialed addr (Some (opened w)) :: trace w |})
    end.

(** [conn.Write] of one command line.  Nothing is written to a connection
    that was closed. *)
Definition Write (conn : Conn) (line : command) : M (option error) :=
  fun w =>
    if is_closed (fd conn) w then (Some ErrClosed, w)
    else match rejects_write (peer conn) line with
         | Some e => (Some e, w)
         | None => (None, snd (emit (Sent (fd conn) line) w))
         end.

(** [conn.Read] of one response: the server's answer to the line written
    last, or its greeting when nothing was written yet.  A closed connection
    cannot be read. *)
Definition Read (conn : Conn) : M reply :=
  fun w =>
    if is_closed (fd conn) w then (ReadFailed ErrClosed, w)
    else match last_sent (fd conn) (trace w) with
         | Some line => (answers (peer conn) line, w)
         | None => (greeting (peer conn), w)
         end.

(** [conn.Close()]: releases the descriptor; closing twice is an error. *)
Definition Close (conn : Conn) : M (option error) :=
  fun w =>
    if is_closed (fd conn) w then
      (Some ErrClosed,
       {| opened := opened w; closed := closed w;
          trace := Close_called (fd conn) :: trace w |})
    else
      (None,
       {| opened := opened w; closed := fd conn :: closed w;
          trace := Close_called (fd conn) :: trace w |}).

End Net.

(** ** Package [net/textproto] *)

Module Textproto.

(** The decimal digit of the units of [n]. *)
Definition digit (n : Z) : ascii :=
  ascii_of_nat (48 + Z.to_nat (n mod 10)).

(** The status line ["ddd message"] of a code between 0 and 999. *)
Definition status_line (code : Z) (message : string) : string :=
  String (digit (code / 100))
    (String (digit (code / 10)) (String (digit code) (" " ++ message))).

(** The check of [parseCodeLine] on a status line whose first three bytes
    read as [code]: a code below 100 is a protocol error that quotes the
    line, and a code that does not start with the digits of [expectCode]
    is returned together with a [textproto.Error] ("if expectCode is 31,
    an error will be returned if the status is not in the range
    [310,319]"). *)
Definition parseCodeLine (code : Z) (message : string) (expectCode : Z)
  : Z * string * option error :=
  if (code <? 100)%Z then
    (code, "",
     Some (ProtocolError ("invalid response code: "
                          ++ status_line code message)))
  else if ((1 <=? expectCode) && (expectCode <? 10)
             && negb (code / 100 =? expectCode)
           || (10 <=? expectCode) && (expectCode <? 100)
             && negb (code / 10 =? expectCode)
           || (100 <=? expectCode) && (expectCode <? 1000)
             && negb (code =? expectCode))%Z%bool
  then (code, message, Some (ReplyError code message))
  else (code, message, None).

(** [Reader.ReadResponse(expectCode)].  When the read fails, or the line
    has no code, the code returned is 0.  The lines of a multi-line
    response carry one code, so a response is modelled by one code and the
    joined message. *)
Definition ReadResponse (conn : Conn) (expectCode : Z)
  : M (Z * string * option error) :=
  r <- Net.Read conn ;;
  ret match r with
      | ReadFailed e => (0%Z, "", Some e)
      | ShortLine line =>
          (0%Z, "", Some (ProtocolError ("short response: " ++ line)))
      | BadCode line =>
          (0%Z, "", Some (ProtocolError ("invalid response code: " ++ line)))
      | Line code message => parseCodeLine code message expectCode
      end.

(** [Conn.Cmd(format, args...)]: formats the command, appends CR LF and
    writes the bytes in one write.  Nothing here looks at the arguments: an
    argument that holds a line break puts more than one line on the wire
    ([wire_lines] below).  The pipeline id it also returns only orders
    concurrent requests ([StartResponse], [EndResponse]); this program is
    sequential and the id is left out. *)
Definition Cmd (conn : Conn) (line : command) : M (option error) :=
  Net.Write conn line.

(** [Conn.Close()] *)
Definition Close (conn : Conn) : M (option error) := Net.Close conn.

End Textproto.

(** ** Package [net/smtp] *)

Module Smtp.

(** [smtp.Client].  The methods have pointer receivers; here each method
    returns the client as it has left it. *)
Record Client : Type := {
  Text : Conn;
  serverName : string;
  localName : string;
  didHello : bool;
  helloError : option error;
  ext : option (list (string * string))  (* the extensions the server
                                            announced; [None] is the nil map *)
}.

Definition set_localName (c : Client) (name : string) : Client :=
  {| Text := Text c; serverName := serverName c; localName := name;
     didHello := didHello c; helloError := helloError c; ext := ext c |}.

Definition set_didHello (c : Client) (b : bool) : Client :=
  {| Text := Text c; serverName := serverName c; localName := localName c;
     didHello := b; helloError := helloError c; ext := ext c |}.

Definition set_helloError (c : Client) (e : option error) : Client :=
  {| Text := Text c; serverName := serverName c; localName := localName c;
     didHello := didHello c; helloError := e; ext := ext c |}.

Definition set_ext (c : Client) (x : option (list (string * string)))
  : Client :=
  {| Text := Text c; serverName := serverName c; localName := localName c;
     didHello := didHello c; helloError := helloError c; ext := x |}.

(** [smtp.NewClient(conn, host)]: reads the 220 greeting; when that fails
    the connection is closed and no client is returned. *)
Definition NewClient (conn : Conn) (host : string)
  : M (option Client * option error) :=
  '(_, _, err) <- Textproto.ReadResponse conn 220 ;;
  match err with
  | Some e =>
      Textproto.Close conn ;;;
      ret (None, Some e)
  | None =>
      ret (Some {| Text := conn; serverName := host;
                   localName := "localhost";
                   didHello := false; helloError := None;
                   ext := None |}, None)
  end.

(** [c.cmd(expectCode, format, args...)]: one line out, one response in. *)
Definition cmd (c : Client) (expectCode : Z) (line : command)
  : M (Z * string * option error) :=
  err <- Textproto.Cmd (Text c) line ;;
  match err with
  | Some e => ret (0%Z, "", Some e)
  | None => Textproto.ReadResponse (Text c) expectCode
  end.

(** The extensions a reply to EHLO announces: one per line of the message
    after the first, the keyword up to the first space and the rest of the
    line as its parameters. *)
Definition announced (msg : string) : list (string * string) :=
  match Strings.Split msg LF with
  | _ :: extList => map (fun line => Strings.Cut line " "%char) extList
  | [] => []
  end.

(** [_, ok := c.ext[keyword]] *)
Definition announces (x : list (string * string)) (keyword : string) : bool :=
  existsb (fun kv => String.eqb (fst kv) keyword) x.

(** [c.ehlo()]: on success the client remembers the extensions announced
    (the authentication mechanisms it also remembers are not used by this
    program).  [c.helo()] forgets them. *)
Definition ehlo (c : Client) : M (Client * option error) :=
  '(_, msg, err) <- cmd c 250 (EHLO (localName c)) ;;
  match err with
  | Some e => ret (c, Some e)
  | None => ret (set_ext c (Some (announced msg)), None)
  end.

Definition helo (c : Client) : M (Client * option error) :=
  let c := set_ext c None in
  '(_, _, err) <- cmd c 250 (HELO (localName c)) ;;
  ret (c, err).

(** [c.hello()]: EHLO, then HELO if that fails; runs once per client. *)
Definition hello (c : Client) : M (Client * option error) :=
  if didHello c then ret (c, helloError c)
  else
    let c := set_didHello c true in
    '(c, err) <- ehlo c ;;
    match err with
    | Some _ =>
        '(c, herr) <- helo c ;;
        ret (set_helloError c herr, herr)
    | None => ret (c, helloError c)
    end.

(** [strings.ContainsAny(line, "\n\r")] *)
Fixpoint has_CR_or_LF (line : string) : bool :=
  match line with
  | EmptyString => false
  | String ch rest =>
      Ascii.eqb ch "010"%char || Ascii.eqb ch "013"%char || has_CR_or_LF rest
  end.

Definition validateLine (line : string) : option error :=
  if has_CR_or_LF line then
    Some (New "smtp: A line must not contain CR or LF")
  else None.

(** [c.Hello(localName)] *)
Definition Hello (c : Client) (name : string) : M (Client * option error) :=
  match validateLine name with
  | Some e => ret (c, Some e)
  | None =>
      if didHello c then
        ret (c, Some (New "smtp: Hello called after other methods"))
      else hello (set_localName c name)
  end.

(** What [c.Mail] appends to ["MAIL FROM:<%s>"]: a parameter for each of
    the two extensions it knows, when the server announced it. *)
Definition mail_parameters (x : option (list (string * string))) : string :=
  match x with
  | None => ""
  | Some x =>
      (if announces x "8BITMIME" then " BODY=8BITMIME" else "")
      ++ (if announces x "SMTPUTF8" then " SMTPUTF8" else "")
  end.

(** The sender declaration with the parameters [params] appended. *)
Definition mail_command (from params : string) : command :=
  match params with
  | EmptyString => MAIL_FROM from
  | _ => MAIL_FROM_ESMTP from params
  end.

(** [c.Mail(from)] *)
Definition Mail (c : Client) (from : string) : M (Client * option error) :=
  match validateLine from with
  | Some e => ret (c, Some e)
  | None =>
      '(c, err) <- hello c ;;
      match err with
      | Some e => ret (c, Some e)
      | None =>
          '(_, _, err) <-
             cmd c 250 (mail_command from (mail_parameters (ext c))) ;;
          ret (c, err)
      end
  end.

(** [c.Close()]: "closes the connection". *)
Definition Close (c : Client) : M (option error) := Textproto.Close (Text c).

(** [c.Quit()]: "sends the QUIT command and closes the connection to the
    server".  The handshake is run first if it was not, and its error is
    ignored; when the QUIT exchange fails, Quit returns early with the
    connection left as it is. *)
Definition Quit (c : Client) : M (Client * option error) :=
  '(c, _) <- hello c ;;
  '(_, _, err) <- cmd c 221 QUIT ;;
  match err with
  | Some e => ret (c, Some e)
  | None =>
      err <- Textproto.Close (Text c) ;;
      ret (c, err)
  end.

End Smtp.

(** ** [checkMailbox] (main.go, lines 58-137) *)

Definition smtpPort : Z := 25.

(** [fmt.Sprintf("%s:%d", host, port)] *)
Definition host_port (host : string) (port : Z) : string :=
  host ++ ":" ++ NilZero.string_of_int (Z.to_int port).

Definition logf (lvl : level) (format : string) (args : list logarg) : M unit :=
  emit (Logged lvl format args).

(** Lines 62-84, the loop over the candidates.  [smtpClient] is the variable
    declared on line 59; [conn] and [err] are local to one iteration.  There
    is no statement that leaves the loop: every candidate is dialled, and
    each call of [smtp.NewClient] assigns its result, client or nil, to
    [smtpClient]. *)
Fixpoint selectLoop (network : Network) (servers : list string)
    (smtpClient : option Smtp.Client) : M (option Smtp.Client) :=
  match servers with
  | [] => ret smtpClient
  | mx :: rest =>
      r <- Net.Dial network (host_port mx smtpPort) ;;
      match r with
      | inr err =>
          logf DebugLevel "skipping %s: %v" [AStr mx; AErr err] ;;;
          selectLoop network rest smtpClient
      | inl conn =>
          '(smtpClient, err) <- Smtp.NewClient conn mx ;;
          match err with
          | Some e =>
              logf WarnLevel "could not setup smtp client for %s: %v"
                   [AStr mx; AErr e] ;;;
              selectLoop network rest smtpClient
          | None => selectLoop network rest smtpClient
          end
      end
  end.

(** Lines 91-94, the deferred function. *)
Definition deferred (smtpClient : Smtp.Client) : M unit :=
  Smtp.Close smtpClient ;;;
  Smtp.Quit smtpClient ;;;
  ret tt.

(** Lines 116-136: what is returned for the code and error of the reply. *)
Definition verdict (code : Z) (err : option error) : M (option error) :=
  if (code =? 554)%Z then
    ret (Some (New "appears our IP is blacklisted"))
  else if (code =? 550)%Z then
    ret (Some (New "email does not seem to exist (or server blocks detection)"))
  else if (code =? 250)%Z then
    ret None
  else
    logf WarnLevel "unknown code returned: %d" [AInt code] ;;;
    match err with
    | Some e => ret (Some (Wrap e "smtp response error"))
    | None => ret None
    end.

(** Lines 96-136, the session on the selected client. *)
Definition session (smtpClient : Smtp.Client)
    (fromDomain fromEmail checkEmail : string)
  : M (Smtp.Client * option error) :=
  '(smtpClient, err) <- Smtp.Hello smtpClient fromDomain ;;
  match err with
  | Some e => ret (smtpClient, Some (Wrap e "could not HELO smtp server"))
  | None =>
  '(smtpClient, err) <- Smtp.Mail smtpClient fromEmail ;;
  match err with
  | Some e => ret (smtpClient, Some (Wrap e "could not MAIL FROM smtp server"))
  | None =>
  err <- Textproto.Cmd (Smtp.Text smtpClient) (RCPT_TO checkEmail) ;;
  match err with
  | Some e => ret (smtpClient, Some (Wrap e "could not MAIL FROM smtp server"))
  | None =>
  '(code, _, err) <- Textproto.ReadResponse (Smtp.Text smtpClient) 25 ;;
  res <- verdict code err ;;
  ret (smtpClient, res)
  end end end.

Definition checkMailbox (network : Network)
    (fromDomain fromEmail checkEmail : string) (servers : list string)
  : M (option error) :=
  smtpClient <- selectLoop network servers None ;;
  match smtpClient with
  | None => ret (Some (New "no working mail servers could be found"))
  | Some c =>
      '(c, err) <- session c fromDomain fromEmail checkEmail ;;
      deferred c ;;;
      ret err
  end.

(** ** Sample servers and networks *)

Module Sample.

(** A server that accepts the connection, greets with 220, accepts the
    handshake and the sender, and answers RCPT TO with [rcpt]. *)
Definition answering (rcpt : reply) : Server :=
  {| refuses := None;
     greeting := Line 220 "ready";
     rejects_write := fun _ => None;
     answers := fun line =>
       match line with
       | RCPT_TO _ => rcpt
       | QUIT => Line 221 "bye"
       | _ => Line 250 "ok"
       end |}.

(** A host that refuses the connection. *)
Definition down : Server :=
  {| refuses := Some (NetError "connection refused");
     greeting := ReadFailed (NetError "EOF");
     rejects_write := fun _ => Some (NetError "broken pipe");
     answers := fun _ => ReadFailed (NetError "EOF") |}.

(** A host that accepts the connection and then greets with 554, so that
    [smtp.NewClient] fails. *)
Definition unwilling : Server :=
  {| refuses := None;
     greeting := Line 554 "no service";
     rejects_write := fun _ => None;
     answers := fun _ => Line 503 "bad sequence" |}.

(** A server that rejects both EHLO and HELO. *)
Definition no_hello : Server :=
  {| refuses := None;
     greeting := Line 220 "ready";
     rejects_write := fun _ => None;
     answers := fun line =>
       match line with
       | EHLO _ | HELO _ => Line 501 "go away"
       | QUIT => Line 221 "bye"
       | _ => Line 250 "ok"
       end |}.

(** A server that rejects the sender. *)
Definition no_sender : Server :=
  {| refuses := None;
     greeting := Line 220 "ready";
     rejects_write := fun _ => None;
     answers := fun line =>
       match line with
       | MAIL_FROM _ => Line 553 "sender rejected"
       | QUIT => Line 221 "bye"
       | _ => Line 250 "ok"
       end |}.

(** A server like [answering] that announces extensions in its reply to
    EHLO: a reply of four lines, three of them extensions. *)
Definition extended (rcpt : reply) : Server :=
  {| refuses := None;
     greeting := Line 220 "ready";
     rejects_write := fun _ => None;
     answers := fun line =>
       match line with
       | EHLO _ =>
           Line 250 ("mx1.example.com" ++ String LF "SIZE 35882577"
                     ++ String LF "8BITMIME" ++ String LF "SMTPUTF8")
       | RCPT_TO _ => rcpt
       | QUIT => Line 221 "bye"
       | _ => Line 250 "ok"
       end |}.

(** The network in which [mx1] behaves as [s1], [mx2] as [s2], and no other
    host answers. *)
Definition two_hosts (s1 s2 : Server) : Network :=
  fun addr =>
    if String.eqb addr "mx1.example.com:25" then s1
    else if String.eqb addr "mx2.example.com:25" then s2
    else down.

Definition mx1 : string := "mx1.example.com".
Definition mx2 : string := "mx2.example.com".

End Sample.

(** ** The results of [checkMailbox] and what a trace shows *)

(** The three errors [checkMailbox] makes itself with [errors.New]. *)
Definition no_working_servers : error :=
  New "no working mail servers could be found".
Definition blacklisted : error := New "appears our IP is blacklisted".
Definition does_not_exist : error :=
  New "email does not seem to exist (or server blocks detection)".

Definition is_sender_declaration (line : command) : bool :=
  match line with
  | MAIL_FROM _ | MAIL_FROM_ESMTP _ _ => true
  | _ => false
  end.

Definition is_recipient_probe (line : command) : bool :=
  match line with RCPT_TO _ => true | _ => false end.

Definition is_termination (line : command) : bool :=
  match line with QUIT => true | _ => false end.

(** The event is the writing of a line that satisfies [p]. *)
Definition sends (p : command -> bool) (e : event) : bool :=
  match e with Sent _ line => p line | _ => false end.

(** Some event of [t] is the writing of a line that satisfies [p]. *)
Definition sent (p : command -> bool) (t : list event) : bool :=
  existsb (sends p) t.

(** The number of [conn.Close()] calls on descriptor [c] in [t]. *)
Definition close_calls (c : nat) (t : list event) : nat :=
  length (filter (fun e => match e with
                           | Close_called c' => Nat.eqb c' c
                           | _ => false
                           end) t).

(** The descriptors handed out so far that are still open. *)
Definition still_open (w : World) : list nat :=
  filter (fun c => negb (is_closed c w)) (seq 0 (opened w)).

(** [grows p w w']: the trace of [w'] is the trace of [w] with events put
    in front of it, none of which satisfies [p]. *)
Definition grows (p : event -> bool) (w w' : World) : Prop :=
  exists delta, trace w' = delta ++ trace w /\ existsb p delta = false.

(** A computation that, from any world, adds no event satisfying [p]. *)
Definition quiet {A : Type} (p : event -> bool) (m : M A) : Prop :=
  forall w, grows p w (snd (m w)).

(** [p] holds of no handshake line. *)
Definition spares_hello (p : command -> bool) : Prop :=
  forall name, p (EHLO name) = false /\ p (HELO name) = false.

(** The event is a [conn.Close()] call or the writing of QUIT. *)
Definition closes_or_quits (e : event) : bool :=
  match e with
  | Close_called _ => true
  | Sent _ QUIT => true
  | _ => false
  end.

(** ** Candidates, as the network makes them behave *)

(** The host accepts the connection on the SMTP port. *)
Definition accepts (network : Network) (mx : string) : bool :=
  match refuses (network (host_port mx smtpPort)) with
  | Some _ => false
  | None => true
  end.

(** The host greets with a 220 line, which is what [smtp.NewClient] wants. *)
Definition greets (network : Network) (mx : string) : bool :=
  match greeting (network (host_port mx smtpPort)) with
  | Line code _ => (code =? 220)%Z
  | _ => false
  end.

(** The candidate yields a session: connection accepted and client set up. *)
Definition yields_session (network : Network) (mx : string) : bool :=
  accepts network mx && greets network mx.

(** The last candidate of the list that accepts the connection. *)
Fixpoint last_accepting (network : Network) (servers : list string)
  : option string :=
  match servers with
  | [] => None
  | mx :: rest =>
      match last_accepting network rest with
      | Some m => Some m
      | None => if accepts network mx then Some mx else None
      end
  end.

(** Descriptors that are closed or were written to have been handed out. *)
Definition well_formed (w : World) : Prop :=
  (forall k, In k (closed w) -> k < opened w)
  /\ (forall k line, In (Sent k line) (trace w) -> k < opened w).

(** ** [strings.Join] and [filepath.Base] *)

(** [strings.Join(parts, sep)] for a separator of one byte. *)
Fixpoint Join (parts : list string) (sep : ascii) : string :=
  match parts with
  | [] => ""
  | [p] => p
  | p :: rest => (p ++ String sep (Join rest sep))%string
  end.

Definition slash : ascii := "/"%char.

(** The path without its trailing slashes. *)
Fixpoint strip_trailing_slashes (path : string) : string :=
  match path with
  | EmptyString => EmptyString
  | String c rest =>
      match strip_trailing_slashes rest with
      | EmptyString => if Ascii.eqb c slash then EmptyString
                       else String c EmptyString
      | r => String c r
      end
  end.

(** [filepath.Base(path)] on Unix: the last element of the path, ["."] for
    the empty path, ["/"] for a path of slashes only. *)
Definition Base (path : string) : string :=
  match path with
  | EmptyString => "."
  | _ =>
      match last (Strings.Split (strip_trailing_slashes path) slash) "" with
      | EmptyString => "/"
      | element => element
      end
  end.

(** ** [main] (main.go, lines 139-186) *)

(** How the process ends. *)
Inductive status : Type :=
| Returned                                   (* main returned *)
| Exited (code : Z)                          (* os.Exit(code) *)
| Fatal (format : string) (args : list logarg)
                                             (* log.Fatalf: the entry is
                                                logged, then os.Exit(1) *)
| Panicked.                                  (* a run-time panic *)

(** The exit status the parent process sees. *)
Definition exit_code (s : status) : Z :=
  match s with
  | Returned => 0
  | Exited code => code
  | Fatal _ _ => 1
  | Panicked => 2
  end.

(** Lines 148-184, the body of the loop for one address.  [n] is
    [len(emails)].  The result is the code [os.Exit] was called with, or
    [None] when the loop goes on ([continue], or the end of the body). *)
Definition checkOne (LookupMX : Resolver) (network : Network) (n : nat)
    (email : string) : M (option Z) :=
  let '(emailDomain, err) := extractDomain email in
  match err with
  | Some e =>
      logf ErrorLevel "could not extract domain: %v" [AErr e] ;;;
      if (n =? 1)%nat then ret (Some 1%Z) else ret None
  | None =>
  let '(mxServers, err) := lookupMX LookupMX emailDomain in
  match err with
  | Some e =>
      logf ErrorLevel "could not retrieve mail server: %v" [AErr e] ;;;
      if (n =? 1)%nat then ret (Some 1%Z) else ret None
  | None =>
  if (length mxServers =? 0)%nat then
    logf InfoLevel "no mail servers found for %s" [AStr email] ;;;
    if (n =? 1)%nat then ret (Some 0%Z) else ret None
  else
    err <- checkMailbox network "ironpeak.be" "test@ironpeak.be" email
                        mxServers ;;
    match err with
    | Some e =>
        logf InfoLevel "seems to be invalid (%s)" [AErr e] ;;;
        if (n =? 1)%nat then ret (Some 1%Z) else ret None
    | None =>
        logf InfoLevel "seems to be valid" [] ;;;
        ret None
    end
  end end.

(** Lines 147-185, the loop over the addresses. *)
Fixpoint mainLoop (LookupMX : Resolver) (network : Network) (n : nat)
    (emails : list string) : M (option Z) :=
  match emails with
  | [] => ret None
  | email :: rest =>
      r <- checkOne LookupMX network n email ;;
      match r with
      | Some code => ret (Some code)
      | None => mainLoop LookupMX network n rest
      end
  end.

(** [main], with [os.Args] as its argument.  Slicing an empty [os.Args]
    from index 1 panics. *)
Definition main (LookupMX : Resolver) (network : Network)
    (Args : list string) : M status :=
  match Args with
  | [] => ret Panicked
  | prog :: emails =>
      if (length emails =? 0)%nat then
        ret (Fatal "usage: %s email ..." [AStr (Base prog)])
      else
        r <- mainLoop LookupMX network (length emails) emails ;;
        ret match r with
            | Some code => Exited code
            | None => Returned
            end
  end.

(** ** What a trace shows, continued *)

(** The addresses dialled in [t], newest first. *)
Fixpoint dials (t : list event) : list string :=
  match t with
  | [] => []
  | Dialed addr _ :: t' => addr :: dials t'
  | _ :: t' => dials t'
  end.

(** The commands written to descriptor [c] in [t], newest first. *)
Fixpoint written (c : nat) (t : list event) : list command :=
  match t with
  | [] => []
  | Sent c' line :: t' =>
      if Nat.eqb c' c then line :: written c t' else written c t'
  | _ :: t' => written c t'
  end.

(** The event is the writing of a line to a descriptor other than [c]. *)
Definition writes_elsewhere (c : nat) (e : event) : bool :=
  match e with
  | Sent c' _ => negb (Nat.eqb c' c)
  | _ => false
  end.

(** The event is a log entry of [main]: level error or info. *)
Definition is_report (e : event) : bool :=
  match e with
  | Logged ErrorLevel _ _ | Logged InfoLevel _ _ => true
  | _ => false
  end.

(** The addresses [main] has [checkMailbox] dial for one argument: the MX
    hosts of its domain, none when the argument has no domain or the lookup
    fails. *)
Definition targets (LookupMX : Resolver) (email : string) : list string :=
  match extractDomain email with
  | (_, Some _) => []
  | (emailDomain, None) =>
      match lookupMX LookupMX emailDomain with
      | (_, Some _) => []
      | (mxServers, None) =>
          map (fun mx => host_port mx smtpPort) mxServers
      end
  end.

(** The world with one more event. *)
Definition push (e : event) (w : World) : World :=
  {| opened := opened w; closed := closed w; trace := e :: trace w |}.

(** The log entries of [main] in [t]. *)
Definition reports (t : list event) : list event := filter is_report t.

(** The parameters [smtp.Client.Mail] can append to the sender
    declaration. *)
Definition mail_parameter_texts : list string :=
  [""; " BODY=8BITMIME"; " SMTPUTF8"; " BODY=8BITMIME SMTPUTF8"].

(** The sequences of commands, oldest first, that a session with handshake
    name [d], sender [f] and recipient [r] can have written when it ends;
    [p] is what the sender declaration carries after an accepted EHLO. *)
Definition session_lines (d f p r : string) : list (list command) :=
  [ [];
    [EHLO d]; [HELO d]; [EHLO d; HELO d];
    [EHLO d; Smtp.mail_command f p]; [HELO d; MAIL_FROM f];
    [EHLO d; HELO d; MAIL_FROM f];
    [EHLO d; Smtp.mail_command f p; RCPT_TO r];
    [HELO d; MAIL_FROM f; RCPT_TO r];
    [EHLO d; HELO d; MAIL_FROM f; RCPT_TO r] ].

(** The world with the events of [delta] on top, the first one newest. *)
Definition pushes (delta : list event) (w : World) : World :=
  fold_right push w delta.

(** What a session adds to the trace: lines on its own connection and the
    warning about an unknown code. *)
Definition session_event (c : nat) (e : event) : Prop :=
  (exists line, e = Sent c line)
  \/ (exists args, e = Logged WarnLevel "unknown code returned: %d" args).

(** The descriptors below [n] that are not in [cl]. *)
Definition open_in (cl : list nat) (n : nat) : list nat :=
  filter (fun c => negb (existsb (Nat.eqb c) cl)) (seq 0 n).

(** ** What a command puts on the wire *)

(** The text [Conn.Cmd] formats for a command; CR LF follows it. *)
Definition wire_text (line : command) : string :=
  match line with
  | EHLO name => "EHLO " ++ name
  | HELO name => "HELO " ++ name
  | MAIL_FROM from => "MAIL FROM:<" ++ from ++ ">"
  | MAIL_FROM_ESMTP from params => "MAIL FROM:<" ++ from ++ ">" ++ params
  | RCPT_TO rcpt => "RCPT TO:<" ++ rcpt ++ ">"
  | QUIT => "QUIT"
  end.

(** The text without a carriage return at its end. *)
Fixpoint strip_CR (s : string) : string :=
  match s with
  | EmptyString => EmptyString
  | String c rest =>
      match rest with
      | EmptyString => if Ascii.eqb c CR then EmptyString else s
      | _ => String c (strip_CR rest)
      end
  end.

(** The lines the peer reads when the command is written: the text is cut
    at every line feed, and a carriage return before the cut belongs to the
    line end. *)
Definition wire_lines (line : command) : list string :=
  map strip_CR (Strings.Split (wire_text line) LF).

Definition upper (c : ascii) : ascii :=
  let n := nat_of_ascii c in
  if ((97 <=? n) && (n <=? 122))%nat then ascii_of_nat (n - 32) else c.

(** The line starts with the verb QUIT, in either case. *)
Definition is_quit_line (line : string) : bool :=
  match line with
  | String a (String b (String c (String d _))) =>
      String.eqb
        (String (upper a) (String (upper b) (String (upper c)
           (String (upper d) EmptyString)))) "QUIT"
  | _ => false
  end.

(** The command is one line on the wire, and that line is no QUIT. *)
Definition plain (line : command) : Prop :=
  Smtp.has_CR_or_LF (wire_text line) = false
  /\ is_quit_line (wire_text line) = false.

(** Some write of [t] puts a QUIT line on the wire. *)
Definition quit_on_wire (t : list event) : bool :=
  existsb (fun e => match e with
                    | Sent _ line => existsb is_quit_line (wire_lines line)
                    | _ => false
                    end) t.

(** * Properties *)

(** ** What the calls add to the trace *)

(** The calls on a client leave its connection the same. *)
Lemma ehlo_Text c w :
  Smtp.Text (fst (fst (Smtp.ehlo c w))) = Smtp.Text c.
Proof.
  unfold Smtp.ehlo, bind.
  destruct (Smtp.cmd c 250 _ w) as [[[code msg] [e|]] w1]; reflexivity.
Qed.

Lemma helo_Text c w :
  Smtp.Text (fst (fst (Smtp.helo c w))) = Smtp.Text c.
Proof.
  unfold Smtp.helo, bind.
  destruct (Smtp.cmd _ 250 _ w) as [[[code msg] err] w1]. reflexivity.
Qed.

Lemma hello_Text c w :
  Smtp.Text (fst (fst (Smtp.hello c w))) = Smtp.Text c.
Proof.
  unfold Smtp.hello. destruct (Smtp.didHello c); [reflexivity|].
  unfold bind. pose proof (ehlo_Text (Smtp.set_didHello c true) w) as E.
  destruct (Smtp.ehlo _ w) as [[c1 [e|]] w1]; simpl in E; [|exact E].
  pose proof (helo_Text c1 w1) as H.
  destruct (Smtp.helo c1 w1) as [[c2 herr] w2]. simpl in *. congruence.
Qed.

Lemma Hello_Text c name w :
  Smtp.Text (fst (fst (Smtp.Hello c name w))) = Smtp.Text c.
Proof.
  unfold Smtp.Hello. destruct (Smtp.validateLine name); [reflexivity|].
  destruct (Smtp.didHello c); [reflexivity|].
  apply (hello_Text (Smtp.set_localName c name)).
Qed.

Lemma Mail_Text c from w :
  Smtp.Text (fst (fst (Smtp.Mail c from w))) = Smtp.Text c.
Proof.
  unfold Smtp.Mail. destruct (Smtp.validateLine from); [reflexivity|].
  unfold bind. pose proof (hello_Text c w) as T.
  destruct (Smtp.hello c w) as [[c' [e|]] w1]; simpl in *; [exact T|].
  destruct (Smtp.cmd c' 250 _ w1) as [[[? ?] ?] w2]. exact T.
Qed.

Section Quiet.

Variable p : event -> bool.

Lemma grows_refl (w : World) : grows p w w.
Proof. exists []. split; reflexivity. Qed.

Lemma grows_trans (w1 w2 w3 : World) :
  grows p w1 w2 -> grows p w2 w3 -> grows p w1 w3.
Proof.
  intros (d1 & E1 & S1) (d2 & E2 & S2). exists (d2 ++ d1). split.
  - rewrite E2, E1. apply app_assoc.
  - rewrite existsb_app, S1, S2. reflexivity.
Qed.

Lemma quiet_ret {A} (a : A) : quiet p (ret a).
Proof. intros w. apply grows_refl. Qed.

Lemma quiet_bind {A B} (m : M A) (k : A -> M B) :
  quiet p m -> (forall a, quiet p (k a)) -> quiet p (bind m k).
Proof.
  intros Hm Hk w. unfold bind. specialize (Hm w).
  destruct (m w) as [a w1]. simpl in Hm.
  eapply grows_trans; [exact Hm | apply Hk].
Qed.

Lemma quiet_emit (e : event) : p e = false -> quiet p (emit e).
Proof.
  intros H w. exists [e]. split; [reflexivity|]. simpl. now rewrite H.
Qed.

Lemma quiet_Write conn line :
  p (Sent (fd conn) line) = false -> quiet p (Net.Write conn line).
Proof.
  intros H w. unfold Net.Write.
  destruct (is_closed (fd conn) w); [apply grows_refl|].
  destruct (rejects_write (peer conn) line); [apply grows_refl|].
  apply (quiet_emit _ H).
Qed.

Lemma quiet_Read conn : quiet p (Net.Read conn).
Proof.
  intros w. unfold Net.Read.
  destruct (is_closed (fd conn) w); [apply grows_refl|].
  destruct (last_sent (fd conn) (trace w)); apply grows_refl.
Qed.

Lemma quiet_Close conn :
  p (Close_called (fd conn)) = false -> quiet p (Net.Close conn).
Proof.
  intros H w. unfold Net.Close.
  destruct (is_closed (fd conn) w); simpl;
    exists [Close_called (fd conn)]; (split; [reflexivity|]);
    simpl; now rewrite H.
Qed.

Lemma quiet_ReadResponse conn expectCode :
  quiet p (Textproto.ReadResponse conn expectCode).
Proof.
  apply quiet_bind; [apply quiet_Read | intros r; apply quiet_ret].
Qed.

Lemma quiet_cmd c expectCode line :
  p (Sent (fd (Smtp.Text c)) line) = false ->
  quiet p (Smtp.cmd c expectCode line).
Proof.
  intros H. apply quiet_bind; [apply quiet_Write, H|].
  intros [e|]; [apply quiet_ret | apply quiet_ReadResponse].
Qed.

Lemma quiet_ehlo c :
  (forall name, p (Sent (fd (Smtp.Text c)) (EHLO name)) = false) ->
  quiet p (Smtp.ehlo c).
Proof.
  intros HE. apply quiet_bind; [apply quiet_cmd, HE|].
  intros [[? ?] [?|]]; apply quiet_ret.
Qed.

Lemma quiet_helo c :
  (forall name, p (Sent (fd (Smtp.Text c)) (HELO name)) = false) ->
  quiet p (Smtp.helo c).
Proof.
  intros HH. unfold Smtp.helo.
  apply quiet_bind; [apply quiet_cmd, HH|].
  intros [[? ?] ?]. apply quiet_ret.
Qed.

Lemma quiet_hello c :
  (forall name, p (Sent (fd (Smtp.Text c)) (EHLO name)) = false) ->
  (forall name, p (Sent (fd (Smtp.Text c)) (HELO name)) = false) ->
  quiet p (Smtp.hello c).
Proof.
  intros HE HH w.
  unfold Smtp.hello. destruct (Smtp.didHello c); [apply quiet_ret|].
  unfold bind.
  pose proof (quiet_ehlo (Smtp.set_didHello c true) HE w) as G.
  pose proof (ehlo_Text (Smtp.set_didHello c true) w) as T.
  destruct (Smtp.ehlo _ w) as [[c1 [e|]] w1]; simpl in *; [|exact G].
  eapply grows_trans; [exact G|].
  assert (HH1 : forall name,
             p (Sent (fd (Smtp.Text c1)) (HELO name)) = false)
    by (rewrite T; exact HH).
  pose proof (quiet_helo c1 HH1 w1) as G2.
  destruct (Smtp.helo c1 w1) as [[c2 herr] w2]. exact G2.
Qed.

Lemma quiet_Hello c name :
  (forall name, p (Sent (fd (Smtp.Text c)) (EHLO name)) = false) ->
  (forall name, p (Sent (fd (Smtp.Text c)) (HELO name)) = false) ->
  quiet p (Smtp.Hello c name).
Proof.
  intros HE HH.
  unfold Smtp.Hello. destruct (Smtp.validateLine name); [apply quiet_ret|].
  destruct (Smtp.didHello c); [apply quiet_ret|].
  apply quiet_hello; assumption.
Qed.

Lemma quiet_Mail c from :
  (forall name, p (Sent (fd (Smtp.Text c)) (EHLO name)) = false) ->
  (forall name, p (Sent (fd (Smtp.Text c)) (HELO name)) = false) ->
  (forall params,
     p (Sent (fd (Smtp.Text c)) (Smtp.mail_command from params)) = false) ->
  quiet p (Smtp.Mail c from).
Proof.
  intros HE HH H w. unfold Smtp.Mail.
  destruct (Smtp.validateLine from); [apply quiet_ret|].
  unfold bind. pose proof (quiet_hello c HE HH w) as G.
  pose proof (hello_Text c w) as T.
  destruct (Smtp.hello c w) as [[c' [e|]] w']; simpl in *; [exact G|].
  eapply grows_trans; [exact G|].
  apply quiet_bind; [apply quiet_cmd; rewrite T; apply H|].
  intros [[? ?] ?]. apply quiet_ret.
Qed.

Lemma quiet_Quit c :
  (forall name, p (Sent (fd (Smtp.Text c)) (EHLO name)) = false) ->
  (forall name, p (Sent (fd (Smtp.Text c)) (HELO name)) = false) ->
  p (Sent (fd (Smtp.Text c)) QUIT) = false ->
  p (Close_called (fd (Smtp.Text c))) = false ->
  quiet p (Smtp.Quit c).
Proof.
  intros HE HH HQ HC w. unfold Smtp.Quit.
  unfold bind at 1. pose proof (quiet_hello c HE HH w) as G.
  pose proof (hello_Text c w) as T.
  destruct (Smtp.hello c w) as [[c' err] w']; simpl in *.
  eapply grows_trans; [exact G|].
  apply quiet_bind; [apply quiet_cmd; rewrite T; exact HQ|].
  intros [[? ?] [e|]]; [apply quiet_ret|].
  apply quiet_bind; [|intros; apply quiet_ret].
  apply quiet_Close. rewrite T. exact HC.
Qed.

End Quiet.

(** No event of a list is the writing of a line satisfying either of two
    predicates exactly when that holds for each of them. *)
Lemma sent_orb (p q : command -> bool) (t : list event) :
  sent (fun l => p l || q l) t = sent p t || sent q t.
Proof.
  unfold sent. induction t as [|e t IH]; simpl; [reflexivity|].
  rewrite IH. destruct e; simpl; try reflexivity.
  destruct (p line), (q line); simpl; auto using orb_true_r.
Qed.

Section QuietLines.

(** The calls of [checkMailbox], for a predicate on the lines written. *)
Variable pc : command -> bool.

Hypothesis pc_spares_hello : spares_hello pc.

Lemma lines_logf lvl format args : quiet (sends pc) (logf lvl format args).
Proof. apply quiet_emit. reflexivity. Qed.

Lemma lines_Dial network addr : quiet (sends pc) (Net.Dial network addr).
Proof.
  intros w. unfold Net.Dial. destruct (refuses (network addr)); simpl.
  - exists [Dialed addr None]. split; reflexivity.
  - exists [Dialed addr (Some (opened w))]. split; reflexivity.
Qed.

Lemma lines_NewClient conn host : quiet (sends pc) (Smtp.NewClient conn host).
Proof.
  apply quiet_bind; [apply quiet_ReadResponse|].
  intros [[code msg] [e|]].
  - apply quiet_bind; [apply quiet_Close; reflexivity | intros _; apply quiet_ret].
  - apply quiet_ret.
Qed.

(** The loop over the candidates writes no line at all. *)
Lemma lines_selectLoop network servers :
  forall smtpClient, quiet (sends pc) (selectLoop network servers smtpClient).
Proof.
  induction servers as [|mx rest IH]; intros acc; simpl.
  - apply quiet_ret.
  - apply quiet_bind; [apply lines_Dial|].
    intros [conn|err].
    + apply quiet_bind; [apply lines_NewClient|].
      intros [c [e|]]; [|apply IH].
      apply quiet_bind; [apply lines_logf | intros _; apply IH].
    + apply quiet_bind; [apply lines_logf | intros _; apply IH].
Qed.

Lemma lines_Hello c name : quiet (sends pc) (Smtp.Hello c name).
Proof. apply quiet_Hello; intros n; apply pc_spares_hello. Qed.

Lemma lines_Mail c from :
  (forall params, pc (Smtp.mail_command from params) = false) ->
  quiet (sends pc) (Smtp.Mail c from).
Proof.
  intros H. apply quiet_Mail; try (intros n; apply pc_spares_hello). exact H.
Qed.

Lemma lines_deferred c : pc QUIT = false -> quiet (sends pc) (deferred c).
Proof.
  intros H. unfold deferred.
  apply quiet_bind; [apply quiet_Close; reflexivity|]. intros _.
  apply quiet_bind; [|intros _; apply quiet_ret].
  apply quiet_Quit; try (intros n; apply pc_spares_hello);
    [exact H | reflexivity].
Qed.

End QuietLines.

(** ** The deferred function *)

Lemma Write_on_closed conn line w :
  is_closed (fd conn) w = true ->
  Net.Write conn line w = (Some ErrClosed, w).
Proof. intros H. unfold Net.Write. now rewrite H. Qed.

Lemma cmd_on_closed c expectCode line w :
  is_closed (fd (Smtp.Text c)) w = true ->
  Smtp.cmd c expectCode line w = (0%Z, "", Some ErrClosed, w).
Proof.
  intros H. unfold Smtp.cmd, bind, Textproto.Cmd.
  now rewrite (Write_on_closed _ _ _ H).
Qed.

(** On a closed connection [hello] changes nothing in the world. *)
Lemma hello_on_closed c w :
  is_closed (fd (Smtp.Text c)) w = true ->
  snd (Smtp.hello c w) = w.
Proof.
  intros H. unfold Smtp.hello. destruct (Smtp.didHello c); [reflexivity|].
  unfold bind, Smtp.ehlo, Smtp.helo, bind.
  rewrite cmd_on_closed by exact H. simpl.
  rewrite cmd_on_closed by exact H. reflexivity.
Qed.

(** [Quit] on a closed connection: an error, and nothing written, nothing
    closed. *)
Lemma Quit_on_closed c w :
  is_closed (fd (Smtp.Text c)) w = true ->
  exists c' e, Smtp.Quit c w = (c', Some e, w).
Proof.
  intros H. unfold Smtp.Quit, bind.
  pose proof (hello_on_closed c w H) as W.
  pose proof (hello_Text c w) as T.
  destruct (Smtp.hello c w) as [[c' err] w']; simpl in *; subst w'.
  rewrite cmd_on_closed by (rewrite T; exact H).
  exists c', ErrClosed. reflexivity.
Qed.

Lemma Close_closes conn w :
  is_closed (fd conn) (snd (Net.Close conn w)) = true
  /\ trace (snd (Net.Close conn w)) = Close_called (fd conn) :: trace w
  /\ opened (snd (Net.Close conn w)) = opened w.
Proof.
  unfold Net.Close. destruct (is_closed (fd conn) w) eqn:E; simpl.
  - auto.
  - unfold is_closed. simpl. rewrite Nat.eqb_refl. auto.
Qed.

(** Whatever state the client and the world are in, the deferred function
    adds one [conn.Close()] call on the client's connection to the trace and
    nothing else: the [Quit] that follows writes no line. *)
Lemma deferred_adds_one_close c w :
  trace (snd (deferred c w)) = Close_called (fd (Smtp.Text c)) :: trace w
  /\ is_closed (fd (Smtp.Text c)) (snd (deferred c w)) = true.
Proof.
  unfold deferred, bind, Smtp.Close, Textproto.Close.
  destruct (Close_closes (Smtp.Text c) w) as (H1 & H2 & _).
  destruct (Net.Close (Smtp.Text c) w) as [e w1]. simpl in *.
  destruct (Quit_on_closed c w1 H1) as (c' & e' & ->).
  auto.
Qed.

(** ** What the loop over the candidates does to the connections *)

Lemma close_calls_app k (t1 t2 : list event) :
  close_calls k (t1 ++ t2) = close_calls k t1 + close_calls k t2.
Proof. unfold close_calls. now rewrite filter_app, length_app. Qed.

(** [smtp.NewClient] either returns a fresh client on the connection and
    leaves the world alone, or returns nil after one [Close] call. *)
Lemma NewClient_cases conn host w :
  (exists c,
     Smtp.NewClient conn host w = (Some c, None, w)
     /\ Smtp.Text c = conn /\ Smtp.serverName c = host
     /\ Smtp.didHello c = false)
  \/
  (exists e w',
     Smtp.NewClient conn host w = (None, Some e, w')
     /\ trace w' = Close_called (fd conn) :: trace w
     /\ opened w' = opened w).
Proof.
  unfold Smtp.NewClient, bind, Textproto.ReadResponse, bind, ret.
  assert (R : snd (Net.Read conn w) = w).
  { unfold Net.Read. destruct (is_closed (fd conn) w); [reflexivity|].
    destruct (last_sent (fd conn) (trace w)); reflexivity. }
  destruct (Net.Read conn w) as [r w1]. simpl in R. subst w1.
  destruct (match r with
            | ReadFailed e => _ | ShortLine line => _ | BadCode line => _
            | Line code message => _
            end) as [[code msg] [e|]].
  - right. unfold Textproto.Close.
    destruct (Close_closes conn w) as (_ & T & O).
    destruct (Net.Close conn w) as [e' w']. simpl in *.
    exists e, w'. auto.
  - left. eexists. split; [reflexivity|]. simpl. auto.
Qed.

(** One iteration of the loop, with the calls unfolded. *)
Lemma selectLoop_cons network mx rest acc w :
  selectLoop network (mx :: rest) acc w
  = match refuses (network (host_port mx smtpPort)) with
    | Some e =>
        selectLoop network rest acc
          {| opened := opened w; closed := closed w;
             trace := Logged DebugLevel "skipping %s: %v" [AStr mx; AErr e]
                      :: Dialed (host_port mx smtpPort) None :: trace w |}
    | None =>
        let conn := {| fd := opened w;
                       peer := network (host_port mx smtpPort) |} in
        let w1 := {| opened := S (opened w); closed := closed w;
                     trace := Dialed (host_port mx smtpPort) (Some (opened w))
                              :: trace w |} in
        match Smtp.NewClient conn mx w1 with
        | (smtpClient, Some e, w2) =>
            selectLoop network rest smtpClient
              {| opened := opened w2; closed := closed w2;
                 trace := Logged WarnLevel
                            "could not setup smtp client for %s: %v"
                            [AStr mx; AErr e] :: trace w2 |}
        | (smtpClient, None, w2) => selectLoop network rest smtpClient w2
        end
    end.
Proof.
  simpl. unfold bind, Net.Dial, logf, emit.
  destruct (refuses (network (host_port mx smtpPort))); [reflexivity|].
  simpl. destruct (Smtp.NewClient _ mx _) as [[c [e|]] w2]; reflexivity.
Qed.

(** From any world and with any client held so far, the loop only adds to
    the trace; it calls [Close] on no connection that existed before; and
    the client it ends with is either the one held at the start or sits on
    a connection opened by the loop on which [Close] was not called. *)
Lemma selectLoop_closes network servers :
  forall acc w,
    exists delta,
      trace (snd (selectLoop network servers acc w)) = delta ++ trace w
      /\ opened w <= opened (snd (selectLoop network servers acc w))
      /\ (forall k, k < opened w -> close_calls k delta = 0)
      /\ (forall c,
            fst (selectLoop network servers acc w) = Some c ->
            acc = Some c
            \/ (opened w <= fd (Smtp.Text c)
                /\ close_calls (fd (Smtp.Text c)) delta = 0)).
Proof.
  induction servers as [|mx rest IH]; intros acc w.
  - exists []. simpl. repeat split; auto.
  - rewrite selectLoop_cons.
    destruct (refuses (network (host_port mx smtpPort))) as [e|].
    + match goal with |- context [selectLoop network rest acc ?w'] =>
        destruct (IH acc w') as (d & T & O & K & R) end.
      simpl in *.
      exists (d ++ [Logged DebugLevel "skipping %s: %v" [AStr mx; AErr e];
                    Dialed (host_port mx smtpPort) None]).
      split; [rewrite T, <- app_assoc; reflexivity|].
      split; [exact O|]. split.
      * intros k Hk. rewrite close_calls_app, (K k Hk). reflexivity.
      * intros c Hc. destruct (R c Hc) as [?|[? Z]]; [auto|right].
        split; [assumption|]. rewrite close_calls_app, Z. reflexivity.
    + cbv zeta.
      match goal with |- context [Smtp.NewClient ?conn mx ?w'] =>
        destruct (NewClient_cases conn mx w')
          as [(c' & -> & TC & _) | (e & w2 & -> & T2 & O2)] end.
      * match goal with |- context [selectLoop network rest ?a ?w'] =>
          destruct (IH a w') as (d & T & O & K & R) end.
        simpl in *.
        exists (d ++ [Dialed (host_port mx smtpPort) (Some (opened w))]).
        split; [rewrite T, <- app_assoc; reflexivity|].
        split; [lia|]. split.
        -- intros k Hk. rewrite close_calls_app, (K k) by lia. reflexivity.
        -- intros c Hc. right.
           destruct (R c Hc) as [E|[L Z]].
           ++ injection E as <-. rewrite TC. simpl. split; [lia|].
              rewrite close_calls_app, (K (opened w)) by lia. reflexivity.
           ++ split; [lia|]. rewrite close_calls_app, Z. reflexivity.
      * match goal with |- context [selectLoop network rest None ?w'] =>
          destruct (IH None w') as (d & T & O & K & R) end.
        simpl in *. rewrite O2 in *. simpl in *.
        exists (d ++ [Logged WarnLevel "could not setup smtp client for %s: %v"
                        [AStr mx; AErr e];
                      Close_called (opened w);
                      Dialed (host_port mx smtpPort) (Some (opened w))]).
        split; [rewrite T, T2, <- app_assoc; reflexivity|].
        split; [lia|]. split.
        -- intros k Hk. rewrite close_calls_app, (K k) by lia.
           unfold close_calls. simpl.
           destruct (Nat.eqb_spec (opened w) k); [lia|reflexivity].
        -- intros c Hc. right.
           destruct (R c Hc) as [E|[L Z]]; [discriminate|].
           split; [lia|]. rewrite close_calls_app, Z.
           unfold close_calls. simpl.
           destruct (Nat.eqb_spec (opened w) (fd (Smtp.Text c))); [lia|reflexivity].
Qed.

(** ** The session neither closes nor quits *)

Lemma session_neither_closes_nor_quits c fromDomain fromEmail checkEmail :
  quiet closes_or_quits (session c fromDomain fromEmail checkEmail).
Proof.
  unfold session.
  apply quiet_bind; [apply quiet_Hello; reflexivity|].
  intros [c1 [e|]]; [apply quiet_ret|].
  apply quiet_bind;
    [apply quiet_Mail; try reflexivity; intros [|? ?]; reflexivity|].
  intros [c2 [e|]]; [apply quiet_ret|].
  apply quiet_bind; [apply quiet_Write; reflexivity|].
  intros [e|]; [apply quiet_ret|].
  apply quiet_bind; [apply quiet_ReadResponse|].
  intros [[code msg] err].
  apply quiet_bind; [|intros; apply quiet_ret].
  unfold verdict.
  destruct (code =? 554)%Z; [apply quiet_ret|].
  destruct (code =? 550)%Z; [apply quiet_ret|].
  destruct (code =? 250)%Z; [apply quiet_ret|].
  apply quiet_bind; [apply quiet_emit; reflexivity|].
  intros _. destruct err; apply quiet_ret.
Qed.

Lemma session_Text c fromDomain fromEmail checkEmail w :
  Smtp.Text (fst (fst (session c fromDomain fromEmail checkEmail w)))
  = Smtp.Text c.
Proof.
  unfold session, bind.
  pose proof (Hello_Text c fromDomain w) as T1.
  destruct (Smtp.Hello c fromDomain w) as [[c1 [e|]] w1]; simpl in *;
    [exact T1|].
  pose proof (Mail_Text c1 fromEmail w1) as T2.
  destruct (Smtp.Mail c1 fromEmail w1) as [[c2 [e|]] w2]; simpl in *;
    [congruence|].
  destruct (Textproto.Cmd (Smtp.Text c2) (RCPT_TO checkEmail) w2)
    as [[e|] w3]; simpl; [congruence|].
  destruct (Textproto.ReadResponse (Smtp.Text c2) 25 w3) as [[[code msg] err] w4].
  destruct (verdict code err w4). simpl. congruence.
Qed.

Lemma no_close_no_quit (t : list event) :
  existsb closes_or_quits t = false ->
  (forall k, close_calls k t = 0) /\ sent is_termination t = false.
Proof.
  unfold close_calls, sent.
  induction t as [|e t IH]; simpl; [auto|].
  intros H. apply orb_false_elim in H. destruct H as [He Ht].
  destruct (IH Ht) as [IH1 IH2]. split.
  - intros k. destruct e; simpl in *; try apply IH1. discriminate.
  - rewrite IH2. destruct e; simpl in *; try reflexivity.
    destruct line; simpl in *; try reflexivity. discriminate.
Qed.

(** ** The paths through [checkMailbox] once a client is selected *)

Section Selected.

Variables (network : Network) (fromDomain fromEmail checkEmail : string).
Variables (servers : list string) (w0 : World).
Variables (c0 : Smtp.Client) (w1 : World).

Hypothesis selected : selectLoop network servers None w0 = (Some c0, w1).

(** The result is the one of the session; the deferred function runs on
    the client and world the session leaves, and its outcome is dropped. *)
Lemma checkMailbox_selected :
  checkMailbox network fromDomain fromEmail checkEmail servers w0
  = (snd (fst (session c0 fromDomain fromEmail checkEmail w1)),
     snd (deferred (fst (fst (session c0 fromDomain fromEmail checkEmail w1)))
                   (snd (session c0 fromDomain fromEmail checkEmail w1)))).
Proof.
  unfold checkMailbox, bind at 1. rewrite selected.
  unfold bind.
  destruct (session c0 fromDomain fromEmail checkEmail w1) as [[c e] w2].
  simpl. destruct (deferred c w2) as [[] w3]. reflexivity.
Qed.

Lemma session_Hello_fails c1 cause w2 :
  Smtp.Hello c0 fromDomain w1 = (c1, Some cause, w2) ->
  session c0 fromDomain fromEmail checkEmail w1
  = (c1, Some (Wrap cause "could not HELO smtp server"), w2).
Proof. intros H. unfold session, bind. rewrite H. reflexivity. Qed.

Lemma session_Mail_fails c1 w2 c2 cause w3 :
  Smtp.Hello c0 fromDomain w1 = (c1, None, w2) ->
  Smtp.Mail c1 fromEmail w2 = (c2, Some cause, w3) ->
  session c0 fromDomain fromEmail checkEmail w1
  = (c2, Some (Wrap cause "could not MAIL FROM smtp server"), w3).
Proof. intros H1 H2. unfold session, bind. rewrite H1, H2. reflexivity. Qed.

(** When the handshake, the sender and the writing of RCPT TO went
    through, the result is the one [verdict] gives for what is read, and
    the trace ends with what [verdict] logs and the one [Close] call of the
    deferred function. *)
Lemma session_probe c1 w2 c2 w3 w4 :
  Smtp.Hello c0 fromDomain w1 = (c1, None, w2) ->
  Smtp.Mail c1 fromEmail w2 = (c2, None, w3) ->
  Textproto.Cmd (Smtp.Text c2) (RCPT_TO checkEmail) w3 = (None, w4) ->
  forall code message err,
    fst (Textproto.ReadResponse (Smtp.Text c2) 25 w4) = (code, message, err) ->
    fst (checkMailbox network fromDomain fromEmail checkEmail servers w0)
    = fst (verdict code err w4)
    /\ trace (snd (checkMailbox network fromDomain fromEmail checkEmail
                                servers w0))
       = Close_called (fd (Smtp.Text c2)) :: trace (snd (verdict code err w4)).
Proof.
  intros H1 H2 H3 code message err H4.
  rewrite checkMailbox_selected. simpl.
  unfold session, bind. rewrite H1, H2, H3.
  assert (E : Textproto.ReadResponse (Smtp.Text c2) 25 w4 = (code, message, err, w4)).
  { revert H4. unfold Textproto.ReadResponse, bind, Net.Read, ret.
    destruct (is_closed (fd (Smtp.Text c2)) w4);
      [|destruct (last_sent (fd (Smtp.Text c2)) (trace w4))];
      simpl; intros ->; reflexivity. }
  rewrite E. destruct (verdict code err w4) as [res w5]. simpl.
  split; [reflexivity|]. apply deferred_adds_one_close.
Qed.

End Selected.

Lemma ReadResponse_of_Read conn expectCode w :
  fst (Textproto.ReadResponse conn expectCode w)
  = match fst (Net.Read conn w) with
    | ReadFailed e => (0%Z, "", Some e)
    | ShortLine line =>
        (0%Z, "", Some (ProtocolError ("short response: " ++ line)))
    | BadCode line =>
        (0%Z, "", Some (ProtocolError ("invalid response code: " ++ line)))
    | Line code message => Textproto.parseCodeLine code message expectCode
    end.
Proof.
  unfold Textproto.ReadResponse, bind, ret.
  destruct (Net.Read conn w) as [r w']. reflexivity.
Qed.

(** ** Which client the loop ends with *)

Lemma fresh_is_open w cl :
  (forall k, In k cl -> k < opened w) ->
  existsb (Nat.eqb (opened w)) cl = false.
Proof.
  intros H. apply not_true_is_false. intros E.
  apply existsb_exists in E. destruct E as (k & Hin & Hk).
  apply Nat.eqb_eq in Hk. specialize (H k Hin). lia.
Qed.

Lemma fresh_not_written w t :
  (forall k line, In (Sent k line) t -> k < opened w) ->
  last_sent (opened w) t = None.
Proof.
  induction t as [|e t IH]; simpl; intros H; [reflexivity|].
  assert (IH' : last_sent (opened w) t = None) by (apply IH; intros; eapply H; eauto).
  destruct e; auto.
  destruct (Nat.eqb_spec c (opened w)) as [->|]; [|exact IH'].
  specialize (H (opened w) line (or_introl eq_refl)). lia.
Qed.

(** [smtp.NewClient] on a connection that was just opened: it succeeds
    exactly when the host greets with 220. *)
Lemma NewClient_fresh network mx w :
  well_formed w ->
  let conn := {| fd := opened w; peer := network (host_port mx smtpPort) |} in
  let w1 := {| opened := S (opened w); closed := closed w;
               trace := Dialed (host_port mx smtpPort) (Some (opened w))
                        :: trace w |} in
  well_formed w1
  /\ if greets network mx then
       exists c, Smtp.NewClient conn mx w1 = (Some c, None, w1)
                 /\ Smtp.serverName c = mx
     else
       exists e w2, Smtp.NewClient conn mx w1 = (None, Some e, w2)
                    /\ well_formed w2.
Proof.
  intros [WC WT] conn w1.
  assert (W1 : well_formed w1).
  { split; simpl.
    - intros k Hk. specialize (WC k Hk). lia.
    - intros k line [Hk|Hk]; [discriminate|]. specialize (WT k line Hk). lia. }
  split; [exact W1|].
  (* what a failed greeting leaves: the fresh descriptor closed *)
  assert (F : forall e : error,
             exists e' w2,
               bind (Textproto.Close conn) (fun _ => ret (@None Smtp.Client, Some e)) w1
               = (None, Some e', w2) /\ well_formed w2).
  { intros e. unfold bind, ret, Textproto.Close, Net.Close, is_closed. simpl.
    rewrite (fresh_is_open w (closed w) WC).
    eexists _, _. split; [reflexivity|]. split; simpl.
    - intros k [<-|Hk]; [lia|]. specialize (WC k Hk). lia.
    - intros k line [Hk|[Hk|Hk]]; try discriminate.
      specialize (WT k line Hk). lia. }
  unfold Smtp.NewClient. unfold bind at 1.
  unfold Textproto.ReadResponse, bind, ret, Net.Read, is_closed. simpl.
  rewrite (fresh_is_open w (closed w) WC), (fresh_not_written w (trace w) WT).
  unfold greets. fold w1. fold conn.
  destruct (greeting (network (host_port mx smtpPort)))
    as [e|line|line|code msg]; try apply F.
  unfold Textproto.parseCodeLine.
  destruct (Z.eqb_spec code 220) as [->|Hne].
  - simpl. eexists. split; reflexivity.
  - destruct (Z.ltb_spec code 100); [apply F|].
    simpl. destruct (Z.eqb_spec code 220); [contradiction|]. apply F.
Qed.

Lemma well_formed_logged w lvl format args :
  well_formed w ->
  well_formed {| opened := opened w; closed := closed w;
                 trace := Logged lvl format args :: trace w |}.
Proof.
  intros [WC WT]. split; simpl; [exact WC|].
  intros k line [Hk|Hk]; [discriminate | eauto].
Qed.

Lemma last_accepting_In network servers mx :
  last_accepting network servers = Some mx ->
  In mx servers /\ accepts network mx = true.
Proof.
  induction servers as [|m rest IH]; simpl; [discriminate|].
  destruct (last_accepting network rest) as [m'|].
  - intros H. destruct (IH H). auto.
  - destruct (accepts network m) eqn:A; [|discriminate].
    intros H. injection H as <-. auto.
Qed.

(** The session never returns the error of the empty-handed loop. *)
Lemma session_result_is_not_no_working_servers c fromDomain fromEmail checkEmail w :
  snd (fst (session c fromDomain fromEmail checkEmail w))
  <> Some no_working_servers.
Proof.
  unfold session, bind.
  destruct (Smtp.Hello c fromDomain w) as [[c1 [e|]] w1]; [discriminate|].
  destruct (Smtp.Mail c1 fromEmail w1) as [[c2 [e|]] w2]; [discriminate|].
  destruct (Textproto.Cmd (Smtp.Text c2) (RCPT_TO checkEmail) w2)
    as [[e|] w3]; [discriminate|].
  destruct (Textproto.ReadResponse (Smtp.Text c2) 25 w3) as [[[code msg] err] w4].
  unfold verdict, bind, logf, emit, ret.
  destruct (code =? 554)%Z; [discriminate|].
  destruct (code =? 550)%Z; [discriminate|].
  destruct (code =? 250)%Z; [discriminate|].
  destruct err; discriminate.
Qed.

(** [checkMailbox] returns "no working mail servers could be found" exactly
    when the loop ends with no client. *)
Lemma checkMailbox_fails_iff_loop_nil
    (network : Network) (fromDomain fromEmail checkEmail : string)
    (servers : list string) (w : World) :
  fst (checkMailbox network fromDomain fromEmail checkEmail servers w)
  = Some no_working_servers
  <-> fst (selectLoop network servers None w) = None.
Proof.
  destruct (selectLoop network servers None w) as [[c0|] w1] eqn:S; simpl.
  - rewrite (checkMailbox_selected _ fromDomain fromEmail checkEmail _ _ _ _ S).
    simpl. split; [|discriminate].
    intros H. exfalso.
    exact (session_result_is_not_no_working_servers _ _ _ _ _ H).
  - unfold checkMailbox, bind. rewrite S. simpl. tauto.
Qed.

(** ** C1 *)

(** C1 does not hold of the code.  With two candidates that both accept the
    connection and greet (no candidate refuses, so the first one is the one
    of the claim), the loop dials both and ends with the client of the
    second: every line of the session is written to descriptor 1, and
    descriptor 0, the connection to the first candidate, is never closed. *)
Theorem checkMailbox_keeps_last_connected_candidate :
  let network :=
    Sample.two_hosts (Sample.answering (Line 250 "ok"))
                     (Sample.answering (Line 250 "ok")) in
  let run :=
    checkMailbox network "ironpeak.be" "test@ironpeak.be" "user@example.com"
                 [Sample.mx1; Sample.mx2] start in
  option_map Smtp.serverName
    (fst (selectLoop network [Sample.mx1; Sample.mx2] None start))
  = Some Sample.mx2
  /\ fst run = None
  /\ trace (snd run)
     = [Close_called 1;
        Sent 1 (RCPT_TO "user@example.com");
        Sent 1 (MAIL_FROM "test@ironpeak.be");
        Sent 1 (EHLO "ironpeak.be");
        Dialed "mx2.example.com:25" (Some 1);
        Dialed "mx1.example.com:25" (Some 0)]
  /\ still_open (snd run) = [0]
  /\ close_calls 0 (trace (snd run)) = 0.
Proof. vm_compute. repeat split. Qed.

(** The client the loop ends with is decided by the last candidate that
    accepts the connection: its client if it greets with 220, nil if it does
    not, whatever the candidates before it did.  When no candidate accepts,
    the client held at the start is kept. *)
Theorem selectLoop_ends_with_last_accepting network servers :
  forall acc w,
    well_formed w ->
    match last_accepting network servers with
    | None => fst (selectLoop network servers acc w) = acc
    | Some mx =>
        if greets network mx then
          exists c, fst (selectLoop network servers acc w) = Some c
                    /\ Smtp.serverName c = mx
        else fst (selectLoop network servers acc w) = None
    end.
Proof.
  induction servers as [|mx rest IH]; intros acc w W; [reflexivity|].
  rewrite selectLoop_cons. simpl. unfold accepts.
  destruct (refuses (network (host_port mx smtpPort))) as [e|] eqn:R.
  - match goal with |- context [selectLoop network rest acc ?w'] =>
      specialize (IH acc w') end.
    destruct (last_accepting network rest) as [m|]; apply IH;
      (destruct W as [WC WT]; split; simpl; [exact WC|];
       intros k line [Hk|[Hk|Hk]]; try discriminate; eauto).
  - cbv zeta. destruct (NewClient_fresh network mx w W) as (W1 & H).
    destruct (greets network mx) eqn:G.
    + destruct H as (c & -> & N).
      match goal with |- context [selectLoop network rest ?a ?w'] =>
        specialize (IH a w' W1) end.
      destruct (last_accepting network rest) as [m|]; [exact IH|].
      rewrite G. exists c. auto.
    + destruct H as (e & w2 & -> & W2).
      match goal with |- context [selectLoop network rest None ?w'] =>
        specialize (IH None w' (well_formed_logged _ _ _ _ W2)) end.
      destruct (last_accepting network rest) as [m|]; [exact IH|].
      rewrite G. exact IH.
Qed.

Lemma selectLoop_ends_with_last_accepting_witness :
  exists c,
    fst (selectLoop
           (Sample.two_hosts (Sample.answering (Line 250 "ok"))
                             (Sample.answering (Line 550 "no such user")))
           [Sample.mx1; Sample.mx2] None start) = Some c
    /\ Smtp.serverName c = Sample.mx2.
Proof.
  refine (selectLoop_ends_with_last_accepting
            (Sample.two_hosts (Sample.answering (Line 250 "ok"))
                              (Sample.answering (Line 550 "no such user")))
            [Sample.mx1; Sample.mx2] None start _).
  split; simpl; intros; contradiction.
Defined.

(** ** C2 *)

(** C2 does not hold of the code.  On a run in which everything succeeds
    the deferred function first closes the connection and then calls
    [Quit], which finds the connection closed: the connection is closed by
    one call and the result stands, but no QUIT line is written.  [Quit]
    called on the client as the session leaves it, with the connection
    still open, writes QUIT and closes the connection itself. *)
Theorem checkMailbox_closes_before_quit :
  let network :=
    Sample.two_hosts (Sample.answering (Line 250 "ok")) Sample.down in
  let run :=
    checkMailbox network "ironpeak.be" "test@ironpeak.be" "user@example.com"
                 [Sample.mx1] start in
  fst run = None
  /\ trace (snd run)
     = [Close_called 0;
        Sent 0 (RCPT_TO "user@example.com");
        Sent 0 (MAIL_FROM "test@ironpeak.be");
        Sent 0 (EHLO "ironpeak.be");
        Dialed "mx1.example.com:25" (Some 0)]
  /\ sent is_termination (trace (snd run)) = false
  /\ close_calls 0 (trace (snd run)) = 1
  /\ (let selected := selectLoop network [Sample.mx1] None start in
      match fst selected with
      | None => False
      | Some c0 =>
          let after :=
            session c0 "ironpeak.be" "test@ironpeak.be" "user@example.com"
                    (snd selected) in
          trace (snd (Smtp.Quit (fst (fst after)) (snd after)))
          = Close_called 0 :: Sent 0 QUIT :: trace (snd after)
      end).
Proof. vm_compute. repeat split. Qed.

(** On every run that selects a client, from the start of [checkMailbox]
    to its end and whatever path the session takes: the connection of the
    selected client receives exactly one [Close] call and is closed at the
    end; the command QUIT is written on no connection; and the result is
    the one the session determined. *)
Lemma checkMailbox_closes_once
    (network : Network) (fromDomain fromEmail checkEmail : string)
    (servers : list string) (w0 : World) (c0 : Smtp.Client) (w1 : World) :
  selectLoop network servers None w0 = (Some c0, w1) ->
  exists delta,
    trace (snd (checkMailbox network fromDomain fromEmail checkEmail servers w0))
    = delta ++ trace w0
    /\ close_calls (fd (Smtp.Text c0)) delta = 1
    /\ sent is_termination delta = false
    /\ is_closed (fd (Smtp.Text c0))
         (snd (checkMailbox network fromDomain fromEmail checkEmail servers w0))
       = true
    /\ fst (checkMailbox network fromDomain fromEmail checkEmail servers w0)
       = snd (fst (session c0 fromDomain fromEmail checkEmail w1)).
Proof.
  intros Hsel.
  rewrite (checkMailbox_selected _ fromDomain fromEmail checkEmail _ _ _ _ Hsel).
  simpl.
  destruct (selectLoop_closes network servers None w0) as (d1 & T1 & _ & _ & R).
  rewrite Hsel in T1, R. simpl in T1, R.
  destruct (R c0 eq_refl) as [?|[_ Z1]]; [discriminate|].
  destruct (session_neither_closes_nor_quits c0 fromDomain fromEmail checkEmail w1)
    as (d2 & T2 & Q2).
  destruct (no_close_no_quit d2 Q2) as [Z2 S2].
  pose proof (session_Text c0 fromDomain fromEmail checkEmail w1) as TX.
  destruct (session c0 fromDomain fromEmail checkEmail w1) as [[c e] w2].
  simpl in *.
  destruct (deferred_adds_one_close c w2) as (T3 & C3).
  rewrite TX in T3, C3.
  exists (Close_called (fd (Smtp.Text c0)) :: d2 ++ d1).
  split; [rewrite T3, T2, T1; simpl; rewrite app_assoc; reflexivity|].
  split; [|split; [|split; [exact C3 | reflexivity]]].
  - change (Close_called (fd (Smtp.Text c0)) :: d2 ++ d1)
      with ([Close_called (fd (Smtp.Text c0))] ++ d2 ++ d1).
    rewrite !close_calls_app, Z2, Z1.
    unfold close_calls. simpl. now rewrite Nat.eqb_refl.
  - pose proof (lines_selectLoop is_termination network servers None w0) as G.
    rewrite Hsel in G. destruct G as (d1' & T1' & S1). simpl in T1'.
    rewrite T1 in T1'. apply app_inv_tail in T1'. subst d1'.
    unfold sent in *. simpl. rewrite existsb_app, S2, S1. reflexivity.
Qed.

(** ** C3 *)

(** C3, as stated, fails: 451 is a three-digit code other than 250, 550
    and 554, and a probe answered with 451 makes [checkMailbox] return an
    error. *)
Lemma checkMailbox_unknown_code_is_an_error :
  fst (checkMailbox
         (Sample.two_hosts (Sample.answering (Line 451 "greylisted")) Sample.down)
         "ironpeak.be" "test@ironpeak.be" "user@example.com" [Sample.mx1] start)
  = Some (Wrap (ReplyError 451 "greylisted") "smtp response error").
Proof. vm_compute. reflexivity. Qed.

(** C3, amended.  Let the loop have selected a client, and let the
    handshake, the sender and the writing of RCPT TO have gone through,
    leaving the world [w4].  If the reply read has code [code], what
    [checkMailbox] returns and what it adds to the trace of [w4] are fixed
    by [code].  For 250 it returns no error, for 550 the error "email does
    not seem to exist (or server blocks detection)", for 554 the error
    "appears our IP is blacklisted", and in these three cases it adds
    nothing but the [Close] call of the deferred function.  For every other
    code it first logs the warning "unknown code returned" with the code;
    it then returns no error for 251 to 259, the other codes that
    [ReadResponse(25)] takes without error, the reply wrapped as "smtp
    response error" for the other codes from 100, and the protocol error
    that quotes the line, wrapped in the same way, for a code below 100. *)
Theorem checkMailbox_reply_code_table
    (network : Network) (fromDomain fromEmail checkEmail : string)
    (servers : list string) (w0 : World)
    (c0 : Smtp.Client) (w1 : World) (c1 : Smtp.Client) (w2 : World)
    (c2 : Smtp.Client) (w3 w4 : World) (code : Z) (message : string) :
  selectLoop network servers None w0 = (Some c0, w1) ->
  Smtp.Hello c0 fromDomain w1 = (c1, None, w2) ->
  Smtp.Mail c1 fromEmail w2 = (c2, None, w3) ->
  Textproto.Cmd (Smtp.Text c2) (RCPT_TO checkEmail) w3 = (None, w4) ->
  fst (Net.Read (Smtp.Text c2) w4) = Line code message ->
  let run := checkMailbox network fromDomain fromEmail checkEmail servers w0 in
  let closing := Close_called (fd (Smtp.Text c2)) in
  let warning := Logged WarnLevel "unknown code returned: %d" [AInt code] in
  (code = 250 ->
   fst run = None /\ trace (snd run) = closing :: trace w4)%Z
  /\ (code = 550 ->
      fst run = Some does_not_exist
      /\ trace (snd run) = closing :: trace w4)%Z
  /\ (code = 554 ->
      fst run = Some blacklisted
      /\ trace (snd run) = closing :: trace w4)%Z
  /\ (251 <= code <= 259 ->
      fst run = None /\ trace (snd run) = closing :: warning :: trace w4)%Z
  /\ (100 <= code -> code <> 550 -> code <> 554 -> ~ 250 <= code <= 259 ->
      fst run = Some (Wrap (ReplyError code message) "smtp response error")
      /\ trace (snd run) = closing :: warning :: trace w4)%Z
  /\ (0 <= code < 100 ->
      fst run
      = Some (Wrap (ProtocolError
                      ("invalid response code: "
                       ++ Textproto.status_line code message)%string)
                   "smtp response error")
      /\ trace (snd run) = closing :: warning :: trace w4)%Z.
Proof.
  intros Hsel HH HM HC HR run closing warning.
  assert (E : fst run
              = fst (verdict code
                       (snd (Textproto.parseCodeLine code message 25)) w4)
              /\ trace (snd run)
                 = closing
                   :: trace (snd (verdict code
                        (snd (Textproto.parseCodeLine code message 25)) w4))).
  { subst run closing.
    destruct (Textproto.parseCodeLine code message 25) as [[cd msg] err] eqn:P.
    assert (cd = code) as ->.
    { revert P. unfold Textproto.parseCodeLine.
      destruct (code <? 100)%Z; [|destruct (_ || _)%bool]; congruence. }
    apply (session_probe _ _ _ _ _ _ _ _ Hsel _ _ _ _ _ HH HM HC code msg err).
    rewrite ReadResponse_of_Read, HR. exact P. }
  destruct E as [-> ->]. clear run. subst closing warning.
  unfold verdict, Textproto.parseCodeLine.
  split; [|split; [|split; [|split; [|split]]]].
  - intros ->. split; reflexivity.
  - intros ->. split; reflexivity.
  - intros ->. split; reflexivity.
  - intros H.
    destruct (Z.eqb_spec code 554); [lia|].
    destruct (Z.eqb_spec code 550); [lia|].
    destruct (Z.eqb_spec code 250); [lia|].
    destruct (Z.ltb_spec code 100); [lia|]. simpl.
    destruct (Z.eqb_spec (code / 10) 25) as [_|D]; [split; reflexivity|].
    exfalso. apply D. symmetry.
    apply (Z.div_unique code 10 25 (code - 250)); lia.
  - intros H1 H2 H3 H4.
    destruct (Z.eqb_spec code 554); [lia|].
    destruct (Z.eqb_spec code 550); [lia|].
    destruct (Z.eqb_spec code 250); [lia|].
    destruct (Z.ltb_spec code 100); [lia|]. simpl.
    destruct (Z.eqb_spec (code / 10) 25) as [D|_]; [|split; reflexivity].
    exfalso. apply H4.
    pose proof (Z.div_mod code 10 ltac:(lia)) as DM.
    pose proof (Z.mod_pos_bound code 10 ltac:(lia)). lia.
  - intros H.
    destruct (Z.eqb_spec code 554); [lia|].
    destruct (Z.eqb_spec code 550); [lia|].
    destruct (Z.eqb_spec code 250); [lia|].
    destruct (Z.ltb_spec code 100); [|lia]. split; reflexivity.
Qed.

Lemma checkMailbox_reply_code_table_witness :
  let run :=
    checkMailbox
      (Sample.two_hosts (Sample.answering (Line 252 "cannot verify"))
                        Sample.down)
      "ironpeak.be" "test@ironpeak.be" "user@example.com"
      [Sample.mx1] start in
  let closing := Close_called 0 in
  let warning := Logged WarnLevel "unknown code returned: %d" [AInt 252] in
  let before :=
    [Sent 0 (RCPT_TO "user@example.com");
     Sent 0 (MAIL_FROM "test@ironpeak.be");
     Sent 0 (EHLO "ironpeak.be");
     Dialed "mx1.example.com:25" (Some 0)] in
  (252 = 250 ->
   fst run = None /\ trace (snd run) = closing :: before)%Z
  /\ (252 = 550 ->
      fst run = Some does_not_exist /\ trace (snd run) = closing :: before)%Z
  /\ (252 = 554 ->
      fst run = Some blacklisted /\ trace (snd run) = closing :: before)%Z
  /\ (251 <= 252 <= 259 ->
      fst run = None /\ trace (snd run) = closing :: warning :: before)%Z
  /\ (100 <= 252 -> 252 <> 550 -> 252 <> 554 -> ~ 250 <= 252 <= 259 ->
      fst run = Some (Wrap (ReplyError 252 "cannot verify")
                        "smtp response error")
      /\ trace (snd run) = closing :: warning :: before)%Z
  /\ (0 <= 252 < 100 ->
      fst run
      = Some (Wrap (ProtocolError
                      ("invalid response code: "
                       ++ Textproto.status_line 252 "cannot verify")%string)
                   "smtp response error")
      /\ trace (snd run) = closing :: warning :: before)%Z.
Proof.
  eapply (checkMailbox_reply_code_table
            (Sample.two_hosts (Sample.answering (Line 252 "cannot verify"))
                              Sample.down)
            "ironpeak.be" "test@ironpeak.be" "user@example.com"
            [Sample.mx1] start _ _ _ _
            {| Smtp.Text := {| fd := 0;
                               peer := Sample.answering
                                         (Line 252 "cannot verify") |};
               Smtp.serverName := "mx1.example.com";
               Smtp.localName := "ironpeak.be";
               Smtp.didHello := true;
               Smtp.helloError := None;
               Smtp.ext := Some [] |}
            _
            {| opened := 1; closed := [];
               trace := [Sent 0 (RCPT_TO "user@example.com");
                         Sent 0 (MAIL_FROM "test@ironpeak.be");
                         Sent 0 (EHLO "ironpeak.be");
                         Dialed "mx1.example.com:25" (Some 0)] |}).
  - cbv. reflexivity.
  - cbv. reflexivity.
  - cbv. reflexivity.
  - cbv. reflexivity.
  - cbv. reflexivity.
Defined.

(** ** C4 *)

(** C4 does not hold of the code.  The first candidate alone yields a
    session and a verdict; followed by a candidate that accepts the
    connection and fails the greeting, the same candidate is forgotten:
    [smtp.NewClient]'s nil replaces the client, [checkMailbox] returns "no
    working mail servers could be found", and the connection to the first
    candidate stays open. *)
Theorem checkMailbox_setup_failure_discards_earlier_session :
  let network :=
    Sample.two_hosts (Sample.answering (Line 250 "ok")) Sample.unwilling in
  let run :=
    checkMailbox network "ironpeak.be" "test@ironpeak.be" "user@example.com"
                 [Sample.mx1; Sample.mx2] start in
  option_map Smtp.serverName (fst (selectLoop network [Sample.mx1] None start))
  = Some Sample.mx1
  /\ fst (checkMailbox network "ironpeak.be" "test@ironpeak.be"
            "user@example.com" [Sample.mx1] start) = None
  /\ fst run = Some no_working_servers
  /\ trace (snd run)
     = [Logged WarnLevel "could not setup smtp client for %s: %v"
          [AStr "mx2.example.com"; AErr (ReplyError 554 "no service")];
        Close_called 1;
        Dialed "mx2.example.com:25" (Some 1);
        Dialed "mx1.example.com:25" (Some 0)]
  /\ still_open (snd run) = [0].
Proof. vm_compute. repeat split. Qed.

(** X2. Started in a well-formed world, [checkMailbox] returns "no working
    mail servers could be found" exactly when no candidate accepts the
    connection or the last one that accepts does not greet with 220. *)
Theorem checkMailbox_no_working_servers_iff
    (network : Network) (fromDomain fromEmail checkEmail : string)
    (servers : list string) (w : World) :
  well_formed w ->
  (fst (checkMailbox network fromDomain fromEmail checkEmail servers w)
   = Some no_working_servers
   <-> match last_accepting network servers with
       | None => True
       | Some mx => greets network mx = false
       end).
Proof.
  intros W. rewrite checkMailbox_fails_iff_loop_nil.
  pose proof (selectLoop_ends_with_last_accepting network servers None w W) as L.
  destruct (last_accepting network servers) as [mx|]; [|tauto].
  destruct (greets network mx).
  - destruct L as (c & -> & _). split; discriminate.
  - tauto.
Qed.

Lemma checkMailbox_no_working_servers_iff_witness :
  fst (checkMailbox
         (Sample.two_hosts (Sample.answering (Line 250 "ok")) Sample.unwilling)
         "ironpeak.be" "test@ironpeak.be" "user@example.com"
         [Sample.mx1; Sample.mx2] start)
  = Some no_working_servers
  <-> greets (Sample.two_hosts (Sample.answering (Line 250 "ok"))
                               Sample.unwilling) Sample.mx2 = false.
Proof.
  refine (checkMailbox_no_working_servers_iff
            (Sample.two_hosts (Sample.answering (Line 250 "ok"))
                              Sample.unwilling)
            "ironpeak.be" "test@ironpeak.be" "user@example.com"
            [Sample.mx1; Sample.mx2] start _).
  split; simpl; intros; contradiction.
Defined.

(** X3. Started in a well-formed world, if no candidate yields a session,
    [checkMailbox] returns "no working mail servers could be found". *)
Theorem checkMailbox_no_session_no_servers
    (network : Network) (fromDomain fromEmail checkEmail : string)
    (servers : list string) (w : World) :
  well_formed w ->
  forallb (fun mx => negb (yields_session network mx)) servers = true ->
  fst (checkMailbox network fromDomain fromEmail checkEmail servers w)
  = Some no_working_servers.
Proof.
  intros W H. apply checkMailbox_fails_iff_loop_nil.
  pose proof (selectLoop_ends_with_last_accepting network servers None w W) as L.
  destruct (last_accepting network servers) as [mx|] eqn:E; [|exact L].
  destruct (last_accepting_In _ _ _ E) as [Hin A].
  rewrite forallb_forall in H. specialize (H mx Hin).
  unfold yields_session in H. rewrite A in H. simpl in H.
  destruct (greets network mx); [discriminate | exact L].
Qed.

Lemma checkMailbox_no_session_no_servers_witness :
  fst (checkMailbox (Sample.two_hosts Sample.down Sample.unwilling)
         "ironpeak.be" "test@ironpeak.be" "user@example.com"
         [Sample.mx1; Sample.mx2] start)
  = Some no_working_servers.
Proof.
  apply (checkMailbox_no_session_no_servers
           (Sample.two_hosts Sample.down Sample.unwilling)).
  - split; simpl; intros; contradiction.
  - reflexivity.
Defined.

(** ** Splitting at the separator *)

Section SplitFacts.

Variable sep : ascii.

Lemma Split_length (s : string) :
  length (Strings.Split s sep) = S (Strings.Count s sep).
Proof.
  induction s as [|c rest IH]; simpl; [reflexivity|].
  destruct (Ascii.eqb c sep); simpl.
  - now rewrite IH.
  - destruct (Strings.Split rest sep) as [|p ps]; simpl in *; [discriminate|].
    exact IH.
Qed.

(** Without a separator the string is the only part. *)
Lemma Split_no_sep (s : string) :
  Strings.Count s sep = 0 -> Strings.Split s sep = [s].
Proof.
  induction s as [|c rest IH]; simpl; [reflexivity|].
  destruct (Ascii.eqb c sep); simpl; [discriminate|].
  intros H. now rewrite (IH H).
Qed.

(** With one separator the parts are what stands before and after it. *)
Lemma Split_one_sep (s : string) :
  Strings.Count s sep = 1 ->
  exists l r, s = (l ++ String sep r)%string
              /\ Strings.Count l sep = 0 /\ Strings.Count r sep = 0
              /\ Strings.Split s sep = [l; r].
Proof.
  induction s as [|c rest IH]; simpl; [discriminate|].
  destruct (Ascii.eqb_spec c sep) as [->|Hne]; simpl; intros H.
  - exists "", rest. injection H as H.
    rewrite (Split_no_sep rest H). repeat split; auto.
  - destruct (IH H) as (l & r & -> & Hl & Hr & HS).
    exists (String c l), r. rewrite HS. simpl.
    destruct (Ascii.eqb_spec c sep); [contradiction|].
    repeat split; auto.
Qed.

End SplitFacts.

Lemma extractDomain_accepts (email domain : string) :
  extractDomain email = (domain, None) ->
  Strings.Count email at_sign = 1.
Proof.
  unfold extractDomain. rewrite Split_length.
  destruct (Nat.eqb_spec (S (Strings.Count email at_sign)) 2) as [H|H]; simpl.
  - intros _. lia.
  - discriminate.
Qed.

(** ** C5 *)

(** C5. [extractDomain] is a function of the address alone.  When the
    address holds exactly one ["@"], it returns, without error, the part
    after it (the address is [local ++ "@" ++ domain] with no ["@"] in
    either part, and [domain] is returned).  When the address holds no
    ["@"] or two or more, it returns the error "invalid email address". *)
Theorem extractDomain_spec (email : string) :
  (Strings.Count email at_sign = 1 ->
   exists local domain,
     email = (local ++ "@" ++ domain)%string
     /\ Strings.Count local at_sign = 0
     /\ Strings.Count domain at_sign = 0
     /\ extractDomain email = (domain, None))
  /\
  (Strings.Count email at_sign = 0 \/ 2 <= Strings.Count email at_sign ->
   extractDomain email = ("", Some (New "invalid email address"))).
Proof.
  split.
  - intros H. destruct (Split_one_sep at_sign email H) as (l & r & E & Hl & Hr & HS).
    exists l, r. repeat split; auto.
    unfold extractDomain. rewrite HS. reflexivity.
  - intros H. unfold extractDomain. rewrite Split_length.
    destruct (Nat.eqb_spec (S (Strings.Count email at_sign)) 2) as [E|E]; simpl.
    + lia.
    + reflexivity.
Qed.

Lemma extractDomain_spec_witness :
  (exists local domain,
     "user@example.com" = (local ++ "@" ++ domain)%string
     /\ Strings.Count local at_sign = 0
     /\ Strings.Count domain at_sign = 0
     /\ extractDomain "user@example.com" = (domain, None))
  /\ extractDomain "example.com" = ("", Some (New "invalid email address"))
  /\ extractDomain "a@b@c" = ("", Some (New "invalid email address")).
Proof.
  split; [|split].
  - apply (proj1 (extractDomain_spec "user@example.com")). reflexivity.
  - apply (proj2 (extractDomain_spec "example.com")). left. reflexivity.
  - apply (proj2 (extractDomain_spec "a@b@c")). right. simpl. lia.
Defined.

(** ** C6 *)

(** C6, as stated, fails: an address whose only ["@"] is its last byte is
    accepted with the empty domain, and one whose only ["@"] is its first
    byte is accepted with the empty local part. *)
Lemma extractDomain_accepts_empty_parts :
  extractDomain "user@" = ("", None)
  /\ extractDomain "@example.com" = ("example.com", None).
Proof. split; reflexivity. Qed.

(** C6, amended.  Every address that [extractDomain] accepts holds exactly
    one ["@"]: it is [local ++ "@" ++ domain], where [domain] is the value
    returned and neither part holds an ["@"].  Nothing is said about the
    parts being non-empty. *)
Theorem extractDomain_accepted_shape (email domain : string) :
  extractDomain email = (domain, None) ->
  Strings.Count email at_sign = 1
  /\ exists local,
       email = (local ++ "@" ++ domain)%string
       /\ Strings.Count local at_sign = 0
       /\ Strings.Count domain at_sign = 0.
Proof.
  intros H. pose proof (extractDomain_accepts _ _ H) as H1.
  split; [exact H1|].
  destruct (Split_one_sep at_sign email H1) as (l & r & E & Hl & Hr & HS).
  unfold extractDomain in H. rewrite HS in H. simpl in H.
  injection H as <-. exists l. auto.
Qed.

Lemma extractDomain_accepted_shape_witness :
  Strings.Count "user@example.com" at_sign = 1
  /\ exists local,
       "user@example.com" = (local ++ "@" ++ "example.com")%string
       /\ Strings.Count local at_sign = 0
       /\ Strings.Count "example.com" at_sign = 0.
Proof.
  apply (extractDomain_accepted_shape "user@example.com" "example.com").
  reflexivity.
Defined.

(** ** C7 *)

(** The hosts are returned in the order of the records. *)
Lemma lookupMX_hosts (LookupMX : Resolver) (domain : string) (records : list MX) :
  LookupMX domain = (records, None) ->
  lookupMX LookupMX domain = (map Host records, None).
Proof.
  unfold lookupMX. intros ->. f_equal.
  assert (G : forall acc : list string,
             fold_left (fun servers mx => servers ++ [Host mx]) records acc
             = acc ++ map Host records).
  { induction records as [|mx rs IH]; intros acc; simpl.
    - now rewrite app_nil_r.
    - rewrite IH, <- app_assoc. reflexivity. }
  apply (G []).
Qed.

(** The resolver of the program never gives an empty list without an
    error. *)
Lemma dnsResolver_not_empty (ns : Nameserver) (domain : string) :
  fst (dnsResolver ns domain) = [] -> snd (dnsResolver ns domain) <> None.
Proof.
  unfold dnsResolver. destruct (ns domain) as [e|records invalid]; simpl.
  - discriminate.
  - destruct (Nat.eqb_spec (length records + invalid) 0) as [Z|NZ]; simpl;
      [discriminate|].
    destruct (Nat.eqb_spec invalid 0) as [->|]; simpl; [|discriminate].
    intros ->. simpl in NZ. lia.
Qed.

(** C7 does not hold of the program.  For a domain whose answer holds no
    MX record, the resolver of the program reports the error "no such
    host", and [lookupMX] hands it on: the outcome is a failed lookup, and
    [main] logs "could not retrieve mail server" and exits with 1.  With
    this resolver [lookupMX] never returns an empty list without an error,
    for any name server and domain, so that the branch of [main] for "no
    mail servers found" (lines 168-175) is never taken.  What C7 says of a
    failed query holds: its error is returned. *)
Theorem lookupMX_no_records_is_a_failure :
  let ns : Nameserver := fun _ => Answer [] 0 in
  let run :=
    main (dnsResolver ns) (Sample.two_hosts Sample.down Sample.down)
         ["mailcheck"; "user@example.com"] start in
  lookupMX (dnsResolver ns) "example.com"
  = ([], Some (NetError "no such host"))
  /\ fst run = Exited 1
  /\ trace (snd run)
     = [Logged ErrorLevel "could not retrieve mail server: %v"
          [AErr (NetError "no such host")]]
  /\ (forall (ns : Nameserver) (domain : string),
        lookupMX (dnsResolver ns) domain <> ([], None))
  /\ (forall (ns : Nameserver) (domain : string) (cause : error),
        ns domain = QueryFailed cause ->
        lookupMX (dnsResolver ns) domain = ([], Some cause)).
Proof.
  cbv zeta. split; [reflexivity|]. split; [reflexivity|].
  split; [reflexivity|]. split.
  - intros ns domain H.
    pose proof (dnsResolver_not_empty ns domain) as N.
    unfold lookupMX in H.
    destruct (dnsResolver ns domain) as [records [e|]] eqn:R; [discriminate|].
    pose proof (lookupMX_hosts (dnsResolver ns) domain records R) as L.
    unfold lookupMX in L. rewrite R in L. rewrite L in H.
    injection H as H. simpl in N.
    destruct records; [apply N; reflexivity|discriminate].
  - intros ns domain cause H. unfold lookupMX, dnsResolver. rewrite H.
    reflexivity.
Qed.

(** ** C8 *)

(** C8. Let the loop have selected a client.  If [Hello] fails with
    [cause], [checkMailbox] returns [cause] wrapped as "could not HELO smtp
    server" and, from its start to its end, writes neither a MAIL FROM nor a
    RCPT TO line.  If [Hello] succeeds and [Mail] fails with [cause], it
    returns [cause] wrapped as "could not MAIL FROM smtp server" and writes
    no RCPT TO line.  Neither result is the error returned for reply 550. *)
Theorem checkMailbox_handshake_and_sender_failure
    (network : Network) (fromDomain fromEmail checkEmail : string)
    (servers : list string) (w0 : World) (c0 : Smtp.Client) (w1 : World) :
  selectLoop network servers None w0 = (Some c0, w1) ->
  (forall c1 cause w2,
     Smtp.Hello c0 fromDomain w1 = (c1, Some cause, w2) ->
     exists w,
       checkMailbox network fromDomain fromEmail checkEmail servers w0
       = (Some (Wrap cause "could not HELO smtp server"), w)
       /\ (exists delta,
             trace w = delta ++ trace w0
             /\ sent is_sender_declaration delta = false
             /\ sent is_recipient_probe delta = false)
       /\ Wrap cause "could not HELO smtp server" <> does_not_exist)
  /\
  (forall c1 w2 c2 cause w3,
     Smtp.Hello c0 fromDomain w1 = (c1, None, w2) ->
     Smtp.Mail c1 fromEmail w2 = (c2, Some cause, w3) ->
     exists w,
       checkMailbox network fromDomain fromEmail checkEmail servers w0
       = (Some (Wrap cause "could not MAIL FROM smtp server"), w)
       /\ (exists delta,
             trace w = delta ++ trace w0
             /\ sent is_recipient_probe delta = false)
       /\ Wrap cause "could not MAIL FROM smtp server" <> does_not_exist).
Proof.
  intros Hsel. split.
  - intros c1 cause w2 HH.
    rewrite (checkMailbox_selected _ _ _ _ _ _ _ _ Hsel).
    rewrite session_Hello_fails with (1 := HH). simpl.
    eexists. split; [reflexivity|]. split; [|discriminate].
    set (p := fun l => is_sender_declaration l || is_recipient_probe l).
    assert (Hp : spares_hello p) by (intros name; split; reflexivity).
    assert (G : grows (sends p) w0 (snd (deferred c1 w2))).
    { pose proof (lines_selectLoop p network servers None w0) as G1.
      rewrite Hsel in G1.
      pose proof (lines_Hello p Hp c0 fromDomain w1) as G2. rewrite HH in G2.
      pose proof (lines_deferred p Hp c1 eq_refl w2) as G3.
      exact (grows_trans _ _ _ _ (grows_trans _ _ _ _ G1 G2) G3). }
    destruct G as (delta & E & S). exists delta. split; [exact E|].
    fold (sent p delta) in S.
    subst p. rewrite sent_orb in S. apply orb_false_elim in S. exact S.
  - intros c1 w2 c2 cause w3 HH HM.
    rewrite (checkMailbox_selected _ _ _ _ _ _ _ _ Hsel).
    rewrite session_Mail_fails with (1 := HH) (2 := HM). simpl.
    eexists. split; [reflexivity|]. split; [|discriminate].
    assert (Hp : spares_hello is_recipient_probe)
      by (intros name; split; reflexivity).
    pose proof (lines_selectLoop is_recipient_probe network servers None w0) as G1.
    rewrite Hsel in G1.
    pose proof (lines_Hello _ Hp c0 fromDomain w1) as G2. rewrite HH in G2.
    assert (Hm : forall params,
               is_recipient_probe (Smtp.mail_command fromEmail params) = false)
      by (intros [|? ?]; reflexivity).
    pose proof (lines_Mail _ Hp c1 fromEmail Hm w2) as G3. rewrite HM in G3.
    pose proof (lines_deferred _ Hp c2 eq_refl w3) as G4.
    exact (grows_trans _ _ _ _
             (grows_trans _ _ _ _ (grows_trans _ _ _ _ G1 G2) G3) G4).
Qed.

Lemma checkMailbox_handshake_and_sender_failure_witness :
  (exists w,
     checkMailbox (Sample.two_hosts Sample.no_hello Sample.no_sender)
       "ironpeak.be" "test@ironpeak.be" "user@example.com" [Sample.mx1] start
     = (Some (Wrap (ReplyError 501 "go away") "could not HELO smtp server"), w)
     /\ (exists delta,
           trace w = delta ++ trace start
           /\ sent is_sender_declaration delta = false
           /\ sent is_recipient_probe delta = false)
     /\ Wrap (ReplyError 501 "go away") "could not HELO smtp server"
        <> does_not_exist)
  /\
  (exists w,
     checkMailbox (Sample.two_hosts Sample.no_hello Sample.no_sender)
       "ironpeak.be" "test@ironpeak.be" "user@example.com" [Sample.mx2] start
     = (Some (Wrap (ReplyError 553 "sender rejected")
                "could not MAIL FROM smtp server"), w)
     /\ (exists delta,
           trace w = delta ++ trace start
           /\ sent is_recipient_probe delta = false)
     /\ Wrap (ReplyError 553 "sender rejected") "could not MAIL FROM smtp server"
        <> does_not_exist).
Proof.
  split.
  - eapply (proj1 (checkMailbox_handshake_and_sender_failure
                     (Sample.two_hosts Sample.no_hello Sample.no_sender)
                     "ironpeak.be" "test@ironpeak.be" "user@example.com"
                     [Sample.mx1] start _ _ eq_refl)).
    cbv. reflexivity.
  - eapply (proj2 (checkMailbox_handshake_and_sender_failure
                     (Sample.two_hosts Sample.no_hello Sample.no_sender)
                     "ironpeak.be" "test@ironpeak.be" "user@example.com"
                     [Sample.mx2] start _ _ eq_refl)).
    + cbv. reflexivity.
    + cbv. reflexivity.
Defined.

(** ** C9 *)

(** C9, as stated, fails: [checkMailbox] does not keep a failed read of
    the reply apart from the reply codes.  It treats the failed read as the
    reply code 0, which it does not know: the run in which the connection
    is reset and the run in which the server answers 451 both log "unknown
    code returned", with 0 and with 451, and both return through the
    wrapper "smtp response error". *)
Lemma checkMailbox_read_failure_is_an_unknown_code :
  let failing :=
    checkMailbox
      (Sample.two_hosts
         (Sample.answering (ReadFailed (NetError "connection reset by peer")))
         Sample.down)
      "ironpeak.be" "test@ironpeak.be" "user@example.com" [Sample.mx1] start in
  let unknown :=
    checkMailbox
      (Sample.two_hosts (Sample.answering (Line 451 "greylisted")) Sample.down)
      "ironpeak.be" "test@ironpeak.be" "user@example.com" [Sample.mx1] start in
  let before :=
    [Sent 0 (RCPT_TO "user@example.com");
     Sent 0 (MAIL_FROM "test@ironpeak.be");
     Sent 0 (EHLO "ironpeak.be");
     Dialed "mx1.example.com:25" (Some 0)] in
  fst failing
  = Some (Wrap (NetError "connection reset by peer") "smtp response error")
  /\ fst unknown
     = Some (Wrap (ReplyError 451 "greylisted") "smtp response error")
  /\ trace (snd failing)
     = Close_called 0
       :: Logged WarnLevel "unknown code returned: %d" [AInt 0] :: before
  /\ trace (snd unknown)
     = Close_called 0
       :: Logged WarnLevel "unknown code returned: %d" [AInt 451] :: before.
Proof. vm_compute. repeat split. Qed.

(** C9, amended.  Let the loop have selected a client, and let the
    handshake, the sender and the writing of RCPT TO have gone through,
    leaving the world [w4].  If the read of the reply then fails with
    [cause], no line having been read, [checkMailbox] logs the warning
    "unknown code returned" with the code 0, returns [cause] wrapped as
    "smtp response error", and adds nothing else to the trace of [w4] but
    the [Close] call of the deferred function.  The result is neither the
    success value nor the error returned for reply 550 nor the one returned
    for reply 554; the log entry and the wrapper are those of a reply with
    a code the program does not know. *)
Theorem checkMailbox_probe_read_error
    (network : Network) (fromDomain fromEmail checkEmail : string)
    (servers : list string) (w0 : World)
    (c0 : Smtp.Client) (w1 : World) (c1 : Smtp.Client) (w2 : World)
    (c2 : Smtp.Client) (w3 w4 : World) (cause : error) :
  selectLoop network servers None w0 = (Some c0, w1) ->
  Smtp.Hello c0 fromDomain w1 = (c1, None, w2) ->
  Smtp.Mail c1 fromEmail w2 = (c2, None, w3) ->
  Textproto.Cmd (Smtp.Text c2) (RCPT_TO checkEmail) w3 = (None, w4) ->
  fst (Net.Read (Smtp.Text c2) w4) = ReadFailed cause ->
  let run := checkMailbox network fromDomain fromEmail checkEmail servers w0 in
  fst run = Some (Wrap cause "smtp response error")
  /\ trace (snd run)
     = Close_called (fd (Smtp.Text c2))
       :: Logged WarnLevel "unknown code returned: %d" [AInt 0] :: trace w4
  /\ fst run <> None
  /\ fst run <> Some does_not_exist
  /\ fst run <> Some blacklisted.
Proof.
  intros Hsel HH HM HC HR run.
  destruct (session_probe _ _ _ _ _ _ _ _ Hsel _ _ _ _ _ HH HM HC
              0%Z "" (Some cause)) as [R T].
  { rewrite ReadResponse_of_Read, HR. reflexivity. }
  subst run. rewrite R, T. simpl.
  repeat split; discriminate.
Qed.

Lemma checkMailbox_probe_read_error_witness :
  let run :=
    checkMailbox
      (Sample.two_hosts
         (Sample.answering (ReadFailed (NetError "connection reset by peer")))
         Sample.down)
      "ironpeak.be" "test@ironpeak.be" "user@example.com" [Sample.mx1] start in
  fst run
  = Some (Wrap (NetError "connection reset by peer") "smtp response error")
  /\ trace (snd run)
     = [Close_called 0;
        Logged WarnLevel "unknown code returned: %d" [AInt 0];
        Sent 0 (RCPT_TO "user@example.com");
        Sent 0 (MAIL_FROM "test@ironpeak.be");
        Sent 0 (EHLO "ironpeak.be");
        Dialed "mx1.example.com:25" (Some 0)]
  /\ fst run <> None
  /\ fst run <> Some does_not_exist
  /\ fst run <> Some blacklisted.
Proof.
  eapply (checkMailbox_probe_read_error
            (Sample.two_hosts
               (Sample.answering (ReadFailed (NetError "connection reset by peer")))
               Sample.down)
            "ironpeak.be" "test@ironpeak.be" "user@example.com"
            [Sample.mx1] start _ _ _ _
            {| Smtp.Text :=
                 {| fd := 0;
                    peer := Sample.answering
                              (ReadFailed
                                 (NetError "connection reset by peer")) |};
               Smtp.serverName := "mx1.example.com";
               Smtp.localName := "ironpeak.be";
               Smtp.didHello := true;
               Smtp.helloError := None;
               Smtp.ext := Some [] |}
            _
            {| opened := 1; closed := [];
               trace := [Sent 0 (RCPT_TO "user@example.com");
                         Sent 0 (MAIL_FROM "test@ironpeak.be");
                         Sent 0 (EHLO "ironpeak.be");
                         Dialed "mx1.example.com:25" (Some 0)] |}).
  - cbv. reflexivity.
  - cbv. reflexivity.
  - cbv. reflexivity.
  - cbv. reflexivity.
  - cbv. reflexivity.
Defined.

(** ** C10 *)

(** C10. With an empty candidate list the loop runs no iteration and ends
    with no client; [checkMailbox] returns the error "no working mail
    servers could be found" and leaves the world as it was: nothing is
    dialled, written, closed or logged. *)
Theorem checkMailbox_no_candidates
    (network : Network) (fromDomain fromEmail checkEmail : string) (w : World) :
  checkMailbox network fromDomain fromEmail checkEmail [] w
  = (Some no_working_servers, w)
  /\ selectLoop network [] None w = (None, w).
Proof.
  split.
  - unfold checkMailbox, bind. simpl selectLoop. reflexivity.
  - reflexivity.
Qed.

(** * Further properties *)

(** ** [strings.Split], [strings.Join] and [extractDomain] *)

Section SplitJoin.

Variable sep : ascii.

Lemma Split_not_nil (s : string) : Strings.Split s sep <> [].
Proof.
  intros H. pose proof (Split_length sep s) as L. rewrite H in L. discriminate.
Qed.

Lemma Count_append (l r : string) :
  Strings.Count (l ++ r)%string sep
  = Strings.Count l sep + Strings.Count r sep.
Proof.
  induction l as [|c l IH]; simpl; [reflexivity|].
  rewrite IH. lia.
Qed.

(** Splitting at the first separator. *)
Lemma Split_at_first (l r : string) :
  Strings.Count l sep = 0 ->
  Strings.Split (l ++ String sep r)%string sep = l :: Strings.Split r sep.
Proof.
  induction l as [|c l IH]; simpl.
  - intros _. now rewrite Ascii.eqb_refl.
  - destruct (Ascii.eqb c sep); [discriminate|]. simpl.
    intros H. now rewrite (IH H).
Qed.

(** X4. Joining the parts of a split with the separator gives the string
    back, and no part holds the separator. *)
Theorem Join_Split (s : string) :
  Join (Strings.Split s sep) sep = s
  /\ Forall (fun part => Strings.Count part sep = 0) (Strings.Split s sep).
Proof.
  induction s as [|c rest [IHJ IHF]]; simpl.
  - split; [reflexivity|]. constructor; [reflexivity | constructor].
  - destruct (Ascii.eqb_spec c sep) as [->|Hne].
    + split.
      * pose proof (Split_not_nil rest) as N.
        destruct (Strings.Split rest sep) as [|p ps]; [contradiction|].
        simpl in *. now rewrite IHJ.
      * constructor; [reflexivity | exact IHF].
    + pose proof (Split_not_nil rest) as N.
      destruct (Strings.Split rest sep) as [|p ps]; [contradiction|].
      apply Forall_cons_iff in IHF. destruct IHF as [Hp Hps]. split.
      * destruct ps as [|q qs]; simpl in *; now rewrite <- IHJ.
      * constructor; [|exact Hps]. simpl.
        destruct (Ascii.eqb_spec c sep); [contradiction | exact Hp].
Qed.

End SplitJoin.

(** X5. An address put together from a local part and a domain is accepted
    exactly when neither part holds an ["@"], and then the domain comes
    back; otherwise the address is rejected. *)
Theorem extractDomain_of_parts (local domain : string) :
  extractDomain (local ++ "@" ++ domain)%string
  = if (Strings.Count local at_sign =? 0)%nat
       && (Strings.Count domain at_sign =? 0)%nat
    then (domain, None)
    else ("", Some (New "invalid email address")).
Proof.
  destruct (Nat.eqb_spec (Strings.Count local at_sign) 0) as [Hl|Hl];
    [destruct (Nat.eqb_spec (Strings.Count domain at_sign) 0) as [Hd|Hd]|];
    simpl.
  - unfold extractDomain, at_sign in *.
    change (local ++ "@" ++ domain)%string
      with (local ++ String "@"%char domain)%string.
    rewrite (Split_at_first _ local domain Hl).
    rewrite (Split_no_sep _ domain Hd). reflexivity.
  - unfold extractDomain. rewrite Split_length, Count_append. simpl.
    match goal with |- context [(?a =? ?b)%nat] =>
      destruct (Nat.eqb_spec a b) end; [lia | reflexivity].
  - unfold extractDomain. rewrite Split_length, Count_append. simpl.
    match goal with |- context [(?a =? ?b)%nat] =>
      destruct (Nat.eqb_spec a b) end; [lia | reflexivity].
Qed.

(** ** [lookupMX] keeps the order of the records *)

(** X6. [lookupMX] is determined by the answer of the resolver: when the
    resolver reports an error, the empty list and that error, whatever
    records came with it; otherwise the hosts of the records, one per
    record and in the resolver's order (they are not sorted by preference),
    and no error. *)
Theorem lookupMX_is_map (LookupMX : Resolver) (domain : string) :
  lookupMX LookupMX domain
  = match LookupMX domain with
    | (_, Some e) => ([], Some e)
    | (records, None) => (map Host records, None)
    end.
Proof.
  destruct (LookupMX domain) as [records [e|]] eqn:E.
  - unfold lookupMX. rewrite E. reflexivity.
  - apply lookupMX_hosts. exact E.
Qed.

(** ** The worlds a call can leave *)

Lemma Write_world conn line w :
  (Net.Write conn line w = (None, push (Sent (fd conn) line) w)
   /\ is_closed (fd conn) w = false)
  \/ exists e, Net.Write conn line w = (Some e, w).
Proof.
  unfold Net.Write. destruct (is_closed (fd conn) w); [right; eauto|].
  destruct (rejects_write (peer conn) line); [right; eauto|].
  left. split; reflexivity.
Qed.

Lemma ReadResponse_world conn expectCode w :
  snd (Textproto.ReadResponse conn expectCode w) = w.
Proof.
  unfold Textproto.ReadResponse, bind, ret, Net.Read.
  destruct (is_closed (fd conn) w); [reflexivity|].
  destruct (last_sent (fd conn) (trace w)); reflexivity.
Qed.

(** [cmd] either fails to write and leaves the world alone, or writes the
    line on an open connection. *)
Lemma cmd_world c expectCode line w :
  (exists e, Smtp.cmd c expectCode line w = (0%Z, "", Some e, w))
  \/ (is_closed (fd (Smtp.Text c)) w = false
      /\ snd (Smtp.cmd c expectCode line w)
         = push (Sent (fd (Smtp.Text c)) line) w).
Proof.
  unfold Smtp.cmd, bind, Textproto.Cmd.
  destruct (Write_world (Smtp.Text c) line w) as [[-> O]|[e ->]].
  - right. split; [exact O|]. apply ReadResponse_world.
  - left. exists e. reflexivity.
Qed.

(** [ehlo] and [helo]: what got written, and what the client remembers of
    the extensions. *)
Lemma ehlo_world c w :
  exists c' err w',
    Smtp.ehlo c w = (c', err, w')
    /\ Smtp.Text c' = Smtp.Text c
    /\ Smtp.localName c' = Smtp.localName c
    /\ Smtp.didHello c' = Smtp.didHello c
    /\ Smtp.helloError c' = Smtp.helloError c
    /\ ((w' = w /\ err <> None)
        \/ (w' = push (Sent (fd (Smtp.Text c)) (EHLO (Smtp.localName c))) w
            /\ (err = None -> exists x, Smtp.ext c' = Some x))).
Proof.
  unfold Smtp.ehlo, bind.
  destruct (cmd_world c 250 (EHLO (Smtp.localName c)) w) as [[e ->]|[_ W]].
  - exists c, (Some e), w. split; [reflexivity|].
    do 4 (split; [reflexivity|]). left. split; [reflexivity | discriminate].
  - destruct (Smtp.cmd c 250 (EHLO (Smtp.localName c)) w)
      as [[[code msg] [e|]] w1]; simpl in W; subst w1.
    + exists c, (Some e). eexists. split; [reflexivity|].
      do 4 (split; [reflexivity|]).
      right. split; [reflexivity | discriminate].
    + eexists _, None, _. split; [reflexivity|]. simpl.
      do 4 (split; [reflexivity|]).
      right. split; [reflexivity|]. intros _. eexists. reflexivity.
Qed.

Lemma helo_world c w :
  exists c' err w',
    Smtp.helo c w = (c', err, w')
    /\ Smtp.Text c' = Smtp.Text c
    /\ Smtp.localName c' = Smtp.localName c
    /\ Smtp.didHello c' = Smtp.didHello c
    /\ Smtp.helloError c' = Smtp.helloError c
    /\ Smtp.ext c' = None
    /\ ((w' = w /\ err <> None)
        \/ w' = push (Sent (fd (Smtp.Text c)) (HELO (Smtp.localName c))) w).
Proof.
  unfold Smtp.helo, bind. cbv zeta.
  set (c1 := Smtp.set_ext c None).
  destruct (cmd_world c1 250 (HELO (Smtp.localName c1)) w) as [[e ->]|[_ W]].
  - exists c1, (Some e), w. split; [reflexivity|].
    do 5 (split; [reflexivity|]). left. split; [reflexivity | discriminate].
  - destruct (Smtp.cmd c1 250 (HELO (Smtp.localName c1)) w)
      as [[[code msg] err] w1]; simpl in W; subst w1.
    exists c1, err. eexists. split; [reflexivity|].
    do 5 (split; [reflexivity|]). right. reflexivity.
Qed.

(** The first [hello] of a client: which of EHLO and HELO got written.
    The client knows the extensions when EHLO was accepted and has
    forgotten them when HELO was written. *)
Lemma hello_world c w :
  Smtp.didHello c = false ->
  Smtp.helloError c = None ->
  exists c' err w',
    Smtp.hello c w = (c', err, w')
    /\ Smtp.Text c' = Smtp.Text c
    /\ Smtp.didHello c' = true
    /\ Smtp.helloError c' = err
    /\ ((w' = w /\ err <> None)
        \/ (w' = push (Sent (fd (Smtp.Text c)) (EHLO (Smtp.localName c))) w
            /\ (err = None -> exists x, Smtp.ext c' = Some x))
        \/ (w' = push (Sent (fd (Smtp.Text c)) (HELO (Smtp.localName c))) w
            /\ Smtp.ext c' = None)
        \/ (w' = push (Sent (fd (Smtp.Text c)) (HELO (Smtp.localName c)))
                   (push (Sent (fd (Smtp.Text c)) (EHLO (Smtp.localName c))) w)
            /\ Smtp.ext c' = None)).
Proof.
  intros D E. unfold Smtp.hello. rewrite D. cbv zeta. unfold bind.
  destruct (ehlo_world (Smtp.set_didHello c true) w)
    as (c1 & e1 & w1 & EQ & T1 & L1 & D1 & E1 & W1).
  rewrite EQ. simpl in T1, L1, D1, E1, W1. rewrite E in E1.
  destruct e1 as [e|].
  - destruct (helo_world c1 w1)
      as (c2 & e2 & w2 & EQ2 & T2 & L2 & D2 & E2 & X2 & W2).
    rewrite EQ2. eexists _, _, _. split; [reflexivity|]. simpl.
    rewrite T2, T1, D2, D1. do 3 (split; [reflexivity|]).
    rewrite T1, L1 in W2.
    destruct W1 as [[-> _]|[-> _]]; destruct W2 as [[-> N]| ->].
    + left. auto.
    + right. right. left. auto.
    + right. left. split; [reflexivity|]. intros ->. contradiction.
    + right. right. right. auto.
  - eexists _, _, _. split; [reflexivity|]. simpl.
    rewrite T1, D1, E1. do 3 (split; [reflexivity|]).
    destruct W1 as [[_ N]|[-> X]]; [contradiction|].
    right. left. split; [reflexivity|]. intros _. exact (X eq_refl).
Qed.

(** [Hello] on a fresh client. *)
Lemma Hello_world c name w :
  Smtp.didHello c = false ->
  Smtp.helloError c = None ->
  exists c' err w',
    Smtp.Hello c name w = (c', err, w')
    /\ Smtp.Text c' = Smtp.Text c
    /\ (err = None -> Smtp.didHello c' = true /\ Smtp.helloError c' = None)
    /\ ((w' = w /\ err <> None)
        \/ (w' = push (Sent (fd (Smtp.Text c)) (EHLO name)) w
            /\ (err = None -> exists x, Smtp.ext c' = Some x))
        \/ (w' = push (Sent (fd (Smtp.Text c)) (HELO name)) w
            /\ Smtp.ext c' = None)
        \/ (w' = push (Sent (fd (Smtp.Text c)) (HELO name))
                   (push (Sent (fd (Smtp.Text c)) (EHLO name)) w)
            /\ Smtp.ext c' = None)).
Proof.
  intros D E. unfold Smtp.Hello.
  destruct (Smtp.validateLine name) as [e|].
  - eexists _, _, _. split; [reflexivity|].
    split; [reflexivity|]. split; [discriminate|].
    left. split; [reflexivity | discriminate].
  - rewrite D.
    destruct (hello_world (Smtp.set_localName c name) w D E)
      as (c' & err & w' & EQ & T & D' & E' & W).
    exists c', err, w'. split; [exact EQ|]. split; [exact T|].
    split; [intros ->; auto | exact W].
Qed.

(** The parameters [Mail] appends are one of four texts. *)
Lemma mail_parameters_cases x :
  In (Smtp.mail_parameters x) mail_parameter_texts.
Proof.
  destruct x as [x|]; simpl; [|auto].
  destruct (Smtp.announces x "8BITMIME"), (Smtp.announces x "SMTPUTF8");
    simpl; auto.
Qed.

(** [Mail] on a client whose handshake went through. *)
Lemma Mail_world c from w :
  Smtp.didHello c = true ->
  Smtp.helloError c = None ->
  exists c' err w',
    Smtp.Mail c from w = (c', err, w')
    /\ Smtp.Text c' = Smtp.Text c
    /\ ((w' = w /\ err <> None)
        \/ w' = push (Sent (fd (Smtp.Text c))
                        (Smtp.mail_command from
                           (Smtp.mail_parameters (Smtp.ext c)))) w).
Proof.
  intros D E. unfold Smtp.Mail.
  destruct (Smtp.validateLine from) as [e|].
  - eexists _, _, _. split; [reflexivity|]. split; [reflexivity|].
    left. split; [reflexivity | discriminate].
  - unfold bind, Smtp.hello. rewrite D, E. simpl.
    set (line := Smtp.mail_command from (Smtp.mail_parameters (Smtp.ext c))).
    destruct (cmd_world c 250 line w) as [[e ->]|[_ W]].
    + eexists _, _, _. split; [reflexivity|]. split; [reflexivity|].
      left. split; [reflexivity | discriminate].
    + destruct (Smtp.cmd c 250 line w) as [[[code msg] err] w1].
      simpl in W. subst w1.
      eexists _, _, _. split; [reflexivity|]. split; [reflexivity|]. auto.
Qed.

Lemma verdict_world code err w :
  snd (verdict code err w) = w
  \/ snd (verdict code err w)
     = push (Logged WarnLevel "unknown code returned: %d" [AInt code]) w.
Proof.
  unfold verdict.
  destruct (code =? 554)%Z; [left; reflexivity|].
  destruct (code =? 550)%Z; [left; reflexivity|].
  destruct (code =? 250)%Z; [left; reflexivity|].
  right. unfold bind, logf, emit. destruct err; reflexivity.
Qed.

(** ** What a session adds to the world *)

Lemma pushes_fields delta w :
  opened (pushes delta w) = opened w
  /\ closed (pushes delta w) = closed w
  /\ trace (pushes delta w) = delta ++ trace w.
Proof.
  induction delta as [|e delta (IO & IC & IT)]; simpl; [auto|].
  rewrite IO, IC, IT. auto.
Qed.

Ltac events_of W w :=
  lazymatch W with
  | w => constr:(@nil event)
  | push ?e ?W' => let d := events_of W' w in constr:(e :: d)
  end.

Ltac session_leaf w :=
  cbv beta iota zeta delta [ret]; simpl snd;
  match goal with
  | |- exists delta, ?W = pushes delta w /\ _ =>
      let l := events_of W w in exists l
  end;
  split; [reflexivity|];
  split;
  [ repeat (apply Forall_cons;
            [ first [ left; eexists; reflexivity
                    | right; eexists; reflexivity ] | ]);
    apply Forall_nil
  | simpl; rewrite ?Nat.eqb_refl; simpl;
    repeat (first [left; reflexivity | right]) ].

(** Started on a fresh client, the session leaves the world as it was but
    for the trace, to which it adds only commands on the client's
    connection and at most one warning; the commands are, in order, those
    of a handshake, then MAIL FROM, then RCPT TO, cut short where the
    session stopped.  MAIL FROM carries parameters only after an accepted
    EHLO. *)
Lemma session_world c d f r w :
  Smtp.didHello c = false ->
  Smtp.helloError c = None ->
  exists p,
    In p mail_parameter_texts
    /\ exists delta,
         snd (session c d f r w) = pushes delta w
         /\ Forall (session_event (fd (Smtp.Text c))) delta
         /\ In (rev (written (fd (Smtp.Text c)) delta)) (session_lines d f p r).
Proof.
  intros D E.
  destruct (Hello_world c d w D E) as (c1 & e1 & w1 & EH & T1 & S1 & W1).
  unfold session, bind. rewrite EH.
  destruct e1 as [e|].
  - exists "". split; [simpl; auto|].
    destruct W1 as [[-> _] | [[-> _] | [[-> _] | [-> _]]]]; session_leaf w.
  - exists (Smtp.mail_parameters (Smtp.ext c1)).
    split; [apply mail_parameters_cases|].
    destruct (S1 eq_refl) as [D1 HE1].
    destruct W1 as [[_ N]|W1]; [contradiction|].
    destruct (Mail_world c1 f w1 D1 HE1) as (c2 & e2 & w2 & EM & T2 & W2).
    rewrite EM. rewrite T1 in W2.
    destruct e2 as [e|].
    + destruct W2 as [[-> _] | ->];
        destruct W1 as [[-> _] | [[-> X] | [-> X]]];
        try rewrite X; session_leaf w.
    + destruct W2 as [[_ N] | ->]; [contradiction|].
      unfold Textproto.Cmd.
      match goal with |- context [Net.Write (Smtp.Text c2) (RCPT_TO r) ?w3] =>
        destruct (Write_world (Smtp.Text c2) (RCPT_TO r) w3)
          as [[-> _] | [e ->]]
      end.
      * rewrite T2, T1.
        match goal with |- context [Textproto.ReadResponse ?cn 25 ?w3] =>
          pose proof (ReadResponse_world cn 25 w3) as R;
          destruct (Textproto.ReadResponse cn 25 w3) as [[[code msg] err] w4]
        end.
        simpl in R. subst w4.
        match goal with |- context [verdict code err ?w3] =>
          pose proof (verdict_world code err w3) as V;
          destruct (verdict code err w3) as [res w5]
        end.
        simpl in V.
        destruct V as [-> | ->];
          destruct W1 as [[-> _] | [[-> X] | [-> X]]];
          try rewrite X; session_leaf w.
      * destruct W1 as [[-> _] | [[-> X] | [-> X]]];
          try rewrite X; session_leaf w.
Qed.

(** ** Commands and lines on the wire *)

Lemma has_CR_or_LF_app (a b : string) :
  Smtp.has_CR_or_LF (a ++ b)
  = Smtp.has_CR_or_LF a || Smtp.has_CR_or_LF b.
Proof.
  induction a as [|ch a IH]; simpl; [reflexivity|].
  rewrite IH. now rewrite !orb_assoc.
Qed.

Lemma no_LF (s : string) :
  Smtp.has_CR_or_LF s = false -> Strings.Count s LF = 0.
Proof.
  induction s as [|ch s IH]; simpl; [reflexivity|].
  intros H. apply orb_false_elim in H. destruct H as [H1 H2].
  apply orb_false_elim in H1. destruct H1 as [H1 _].
  unfold LF. rewrite H1. simpl. auto.
Qed.

Lemma strip_CR_id (s : string) :
  Smtp.has_CR_or_LF s = false -> strip_CR s = s.
Proof.
  induction s as [|ch s IH]; [reflexivity|].
  intros H. simpl in H. apply orb_false_elim in H. destruct H as [H1 H2].
  apply orb_false_elim in H1. destruct H1 as [_ H1].
  destruct s as [|ch' s'].
  - simpl. unfold CR. now rewrite H1.
  - change (String ch (strip_CR (String ch' s')) = String ch (String ch' s')).
    now rewrite (IH H2).
Qed.

(** A command without CR and LF in its text is exactly one line. *)
Lemma one_line (line : command) :
  Smtp.has_CR_or_LF (wire_text line) = false ->
  wire_lines line = [wire_text line].
Proof.
  intros H. unfold wire_lines.
  rewrite (Split_no_sep LF _ (no_LF _ H)). simpl.
  now rewrite (strip_CR_id _ H).
Qed.

Lemma plain_EHLO name :
  Smtp.has_CR_or_LF name = false -> plain (EHLO name).
Proof. intros H. split; [simpl; exact H | reflexivity]. Qed.

Lemma plain_HELO name :
  Smtp.has_CR_or_LF name = false -> plain (HELO name).
Proof. intros H. split; [simpl; exact H | reflexivity]. Qed.

Lemma plain_RCPT_TO rcpt :
  Smtp.has_CR_or_LF rcpt = false -> plain (RCPT_TO rcpt).
Proof.
  intros H. split; [|reflexivity].
  simpl. rewrite has_CR_or_LF_app, H. reflexivity.
Qed.

Lemma plain_mail_command from params :
  In params mail_parameter_texts ->
  Smtp.has_CR_or_LF from = false -> plain (Smtp.mail_command from params).
Proof.
  intros [<-|[<-|[<-|[<-|[]]]]] H; (split; [|reflexivity]);
    simpl; rewrite has_CR_or_LF_app, H; reflexivity.
Qed.

Lemma plain_MAIL_FROM from :
  Smtp.has_CR_or_LF from = false -> plain (MAIL_FROM from).
Proof.
  intros H. apply (plain_mail_command from ""); [simpl; auto | exact H].
Qed.

Lemma In_written k line (t : list event) :
  In (Sent k line) t <-> In line (written k t).
Proof.
  induction t as [|e t IH]; simpl; [tauto|].
  destruct e as [addr got|k' line'|k'|lvl format args];
    try (rewrite <- IH; split; [intros [H|H]; [discriminate | exact H] | auto]).
  destruct (Nat.eqb_spec k' k) as [->|N]; simpl; rewrite <- IH.
  - split; intros [H|H]; auto; left; congruence.
  - split; [intros [H|H]; [congruence | exact H] | auto].
Qed.

(** A trace whose commands are all plain shows no QUIT on the wire. *)
Lemma quit_on_wire_plain (t : list event) :
  (forall k line, In (Sent k line) t -> plain line) ->
  quit_on_wire t = false.
Proof.
  unfold quit_on_wire.
  induction t as [|e t IH]; intros H; simpl; [reflexivity|].
  rewrite IH by (intros k line Hin; apply (H k line); right; exact Hin).
  destruct e as [addr got|k line|k|lvl format args]; try reflexivity.
  destruct (H k line (or_introl eq_refl)) as [L Q].
  rewrite (one_line _ L). simpl. now rewrite Q.
Qed.

Lemma pushes_inj (d1 d2 : list event) (w : World) :
  pushes d1 w = pushes d2 w -> d1 = d2.
Proof.
  intros H. apply (f_equal trace) in H.
  destruct (pushes_fields d1 w) as (_ & _ & T1).
  destruct (pushes_fields d2 w) as (_ & _ & T2).
  rewrite T1, T2 in H. exact (app_inv_tail _ _ _ H).
Qed.

(** [Hello] and [Mail] check their argument for CR and LF before anything
    is written; the recipient goes into RCPT TO unchecked.  So the
    commands of a session are plain when the recipient holds no CR and no
    LF. *)
Lemma session_plain c d f r w :
  Smtp.didHello c = false ->
  Smtp.helloError c = None ->
  Smtp.has_CR_or_LF r = false ->
  forall delta,
    snd (session c d f r w) = pushes delta w ->
    forall k line, In (Sent k line) delta -> plain line.
Proof.
  intros D E Hr delta W k line Hin.
  destruct (Smtp.has_CR_or_LF d) eqn:Hd.
  - (* [Hello] refuses the name: nothing is written *)
    assert (S : snd (session c d f r w) = w).
    { unfold session, bind, Smtp.Hello, Smtp.validateLine.
      rewrite Hd. reflexivity. }
    rewrite S in W. change w with (pushes [] w) in W at 1.
    apply pushes_inj in W. subst delta. contradiction.
  - destruct (Smtp.has_CR_or_LF f) eqn:Hf.
    + (* [Mail] refuses the sender: only the handshake is written *)
      destruct (Hello_world c d w D E) as (c1 & e1 & w1 & EH & T1 & S1 & W1).
      assert (S : snd (session c d f r w) = w1).
      { unfold session, bind. rewrite EH. destruct e1; [reflexivity|].
        unfold Smtp.Mail, Smtp.validateLine. rewrite Hf. reflexivity. }
      rewrite S in W.
      destruct W1 as [[-> _] | [[-> _] | [[-> _] | [-> _]]]].
      * change w with (pushes [] w) in W at 1.
        apply pushes_inj in W. subst delta. contradiction.
      * change (push ?e w) with (pushes [e] w) in W.
        apply pushes_inj in W. subst delta.
        destruct Hin as [Hin|[]]. injection Hin as _ <-.
        apply plain_EHLO, Hd.
      * change (push ?e w) with (pushes [e] w) in W.
        apply pushes_inj in W. subst delta.
        destruct Hin as [Hin|[]]. injection Hin as _ <-.
        apply plain_HELO, Hd.
      * change (push ?e1 (push ?e2 w)) with (pushes [e1; e2] w) in W.
        apply pushes_inj in W. subst delta.
        destruct Hin as [Hin|[Hin|[]]]; injection Hin as _ <-.
        -- apply plain_HELO, Hd.
        -- apply plain_EHLO, Hd.
    + (* both pass: the commands are those of [session_lines] *)
      destruct (session_world c d f r w D E) as (p & Hp & delta' & W' & EV & LN).
      rewrite W' in W. apply pushes_inj in W. subst delta'.
      assert (K : k = fd (Smtp.Text c)).
      { rewrite Forall_forall in EV.
        destruct (EV _ Hin) as [[l H]|[args H]]; congruence. }
      subst k. apply In_written, in_rev in Hin.
      unfold session_lines in LN. simpl in LN.
      repeat match goal with
             | H : _ \/ _ |- _ => destruct H as [H|H]
             end;
        try contradiction; rewrite <- LN in Hin; simpl in Hin;
        repeat match goal with
               | H : _ \/ _ |- _ => destruct H as [H|H]
               end;
        try contradiction; subst line;
        auto using plain_EHLO, plain_HELO, plain_RCPT_TO, plain_MAIL_FROM,
                   plain_mail_command.
Qed.

(** ** What [checkMailbox] adds to the trace *)

Lemma dials_app (t1 t2 : list event) : dials (t1 ++ t2) = dials t1 ++ dials t2.
Proof.
  induction t1 as [|e t1 IH]; simpl; [reflexivity|].
  destruct e; simpl; now rewrite IH.
Qed.

Lemma written_app k (t1 t2 : list event) :
  written k (t1 ++ t2) = written k t1 ++ written k t2.
Proof.
  induction t1 as [|e t1 IH]; simpl; [reflexivity|].
  destruct e; simpl; try exact IH.
  destruct (Nat.eqb c k); simpl; now rewrite IH.
Qed.

Lemma reports_app (t1 t2 : list event) :
  reports (t1 ++ t2) = reports t1 ++ reports t2.
Proof. apply filter_app. Qed.

(** The events of a session are no dials, no reports of [main], and no
    lines on other connections. *)
Lemma session_events_only c (delta : list event) :
  Forall (session_event c) delta ->
  dials delta = [] /\ reports delta = []
  /\ forall k, k <> c -> written k delta = [].
Proof.
  induction 1 as [|e delta He _ (ID & IR & IW)]; [auto|].
  destruct He as [[line ->]|[args ->]]; simpl.
  - repeat split; auto. intros k Hk.
    destruct (Nat.eqb_spec c k); [congruence | auto].
  - unfold reports in *. simpl. auto.
Qed.

(** The loop dials every candidate once, in the order of the list,
    whatever the earlier candidates did; it writes no line and makes no
    report. *)
Lemma selectLoop_delta network servers :
  forall acc w,
    exists delta,
      trace (snd (selectLoop network servers acc w)) = delta ++ trace w
      /\ dials delta = rev (map (fun mx => host_port mx smtpPort) servers)
      /\ reports delta = []
      /\ forall k, written k delta = [].
Proof.
  induction servers as [|mx rest IH]; intros acc w.
  - exists []. simpl. auto.
  - rewrite selectLoop_cons.
    destruct (refuses (network (host_port mx smtpPort))) as [e|].
    + match goal with |- context [selectLoop network rest acc ?w'] =>
        destruct (IH acc w') as (d & T & HD & HR & HW) end.
      simpl in T.
      exists (d ++ [Logged DebugLevel "skipping %s: %v" [AStr mx; AErr e];
                    Dialed (host_port mx smtpPort) None]).
      split; [rewrite T, <- app_assoc; reflexivity|].
      rewrite dials_app, reports_app, HD, HR. simpl.
      repeat split. intros k. now rewrite written_app, HW.
    + cbv zeta.
      match goal with |- context [Smtp.NewClient ?conn mx ?w'] =>
        destruct (NewClient_cases conn mx w')
          as [(c' & -> & _) | (e & w2 & -> & T2 & _)] end.
      * match goal with |- context [selectLoop network rest ?a ?w'] =>
          destruct (IH a w') as (d & T & HD & HR & HW) end.
        simpl in T.
        exists (d ++ [Dialed (host_port mx smtpPort) (Some (opened w))]).
        split; [rewrite T, <- app_assoc; reflexivity|].
        rewrite dials_app, reports_app, HD, HR. simpl.
        repeat split. intros k. now rewrite written_app, HW.
      * match goal with |- context [selectLoop network rest None ?w'] =>
          destruct (IH None w') as (d & T & HD & HR & HW) end.
        simpl in T, T2.
        exists (d ++ [Logged WarnLevel "could not setup smtp client for %s: %v"
                        [AStr mx; AErr e];
                      Close_called (opened w);
                      Dialed (host_port mx smtpPort) (Some (opened w))]).
        split; [rewrite T, T2, <- app_assoc; reflexivity|].
        rewrite dials_app, reports_app, HD, HR. simpl.
        repeat split. intros k. now rewrite written_app, HW.
Qed.

(** A client that [smtp.NewClient] returns has not said hello. *)
Lemma NewClient_client conn host w c :
  fst (fst (Smtp.NewClient conn host w)) = Some c ->
  Smtp.Text c = conn /\ Smtp.didHello c = false /\ Smtp.helloError c = None.
Proof.
  unfold Smtp.NewClient, bind.
  destruct (Textproto.ReadResponse conn 220 w) as [[[code msg] [e|]] w1].
  - unfold Textproto.Close. destruct (Net.Close conn w1). discriminate.
  - simpl. intros H. injection H as <-. auto.
Qed.

(** So has the client the loop ends with, unless it held it from the
    start. *)
Lemma selectLoop_fresh_client network servers :
  forall acc w c,
    fst (selectLoop network servers acc w) = Some c ->
    acc = Some c
    \/ (Smtp.didHello c = false /\ Smtp.helloError c = None).
Proof.
  induction servers as [|mx rest IH]; intros acc w c; [simpl; auto|].
  rewrite selectLoop_cons.
  destruct (refuses (network (host_port mx smtpPort))) as [e|];
    [apply IH|].
  cbv zeta.
  match goal with |- context [Smtp.NewClient ?conn mx ?w'] =>
    pose proof (NewClient_client conn mx w') as N;
    destruct (Smtp.NewClient conn mx w') as [[c' [e|]] w2]
  end; simpl in N; intros H; apply IH in H;
    (destruct H as [->|H]; [|auto]).
  - destruct (N c eq_refl) as (_ & ? & ?). auto.
  - destruct (N c eq_refl) as (_ & ? & ?). auto.
Qed.

(** The whole call: what it dials, that it makes no report, which
    commands it writes, and that they are plain when the recipient holds no
    CR and no LF. *)
Lemma checkMailbox_delta network fromDomain fromEmail checkEmail servers w :
  exists delta,
    trace (snd (checkMailbox network fromDomain fromEmail checkEmail servers w))
    = delta ++ trace w
    /\ dials delta = rev (map (fun mx => host_port mx smtpPort) servers)
    /\ reports delta = []
    /\ match fst (selectLoop network servers None w) with
       | None => forall k, written k delta = []
       | Some c0 =>
           (forall k, k <> fd (Smtp.Text c0) -> written k delta = [])
           /\ exists p,
                In p mail_parameter_texts
                /\ In (rev (written (fd (Smtp.Text c0)) delta))
                      (session_lines fromDomain fromEmail p checkEmail)
       end
    /\ (Smtp.has_CR_or_LF checkEmail = false ->
        forall k line, In (Sent k line) delta -> plain line).
Proof.
  destruct (selectLoop_delta network servers None w) as (d1 & T1 & HD & HR & HW).
  pose proof (selectLoop_fresh_client network servers None w) as F.
  destruct (selectLoop network servers None w) as [[c0|] w1] eqn:S;
    simpl in T1, F |- *.
  - rewrite (checkMailbox_selected _ fromDomain fromEmail checkEmail _ _ _ _ S).
    simpl.
    destruct (F c0 eq_refl) as [?|[D E]]; [discriminate|].
    destruct (session_world c0 fromDomain fromEmail checkEmail w1 D E)
      as (p & Hp & d2 & W2 & EV & LN).
    pose proof (session_plain c0 fromDomain fromEmail checkEmail w1 D E) as PL.
    pose proof (session_Text c0 fromDomain fromEmail checkEmail w1) as TX.
    destruct (session c0 fromDomain fromEmail checkEmail w1) as [[c e] w2].
    simpl in *. subst w2.
    destruct (deferred_adds_one_close c (pushes d2 w1)) as (T3 & _).
    destruct (pushes_fields d2 w1) as (_ & _ & TP).
    destruct (session_events_only _ _ EV) as (D2 & R2 & W2).
    exists ([Close_called (fd (Smtp.Text c))] ++ d2 ++ d1).
    split; [rewrite T3, TP, T1; simpl; now rewrite app_assoc|].
    rewrite !dials_app, !reports_app, D2, HD, R2, HR.
    split; [reflexivity|]. split; [reflexivity|]. split; [split|].
    + intros k Hk. rewrite !written_app, HW, (W2 k Hk). reflexivity.
    + exists p. split; [exact Hp|].
      rewrite !written_app, HW, app_nil_r. exact LN.
    + intros Hr k line Hin. simpl in Hin.
      destruct Hin as [Hin|Hin]; [discriminate|].
      apply in_app_or in Hin. destruct Hin as [Hin|Hin].
      * exact (PL Hr d2 eq_refl k line Hin).
      * apply In_written in Hin. rewrite HW in Hin. contradiction.
  - exists d1. unfold checkMailbox, bind. rewrite S. simpl.
    split; [exact T1|]. split; [exact HD|]. split; [exact HR|].
    split; [exact HW|].
    intros _ k line Hin. apply In_written in Hin. rewrite HW in Hin.
    contradiction.
Qed.

(** X7. [checkMailbox] dials every candidate exactly once, in the order of
    the list and whether or not an earlier candidate has already yielded a
    session. *)
Theorem checkMailbox_dials_every_candidate
    (network : Network) (fromDomain fromEmail checkEmail : string)
    (servers : list string) (w : World) :
  exists delta,
    trace (snd (checkMailbox network fromDomain fromEmail checkEmail servers w))
    = delta ++ trace w
    /\ rev (dials delta) = map (fun mx => host_port mx smtpPort) servers.
Proof.
  destruct (checkMailbox_delta network fromDomain fromEmail checkEmail servers w)
    as (delta & T & D & _).
  exists delta. split; [exact T|]. rewrite D. apply rev_involutive.
Qed.

(** X8. The commands [checkMailbox] writes.  When the loop ends with no
    client it writes none.  Otherwise it writes on the connection of the
    selected client only, and what it writes there is, in order, a
    handshake (EHLO, HELO, or EHLO then HELO) with [fromDomain], then the
    sender declaration for [fromEmail], then RCPT TO for [checkEmail], cut
    short where the session stopped: there is no RCPT TO without a sender
    declaration before it, no sender declaration without a handshake
    before it, no command twice, and the command QUIT is not among them.
    After an accepted EHLO the sender declaration carries the parameters of
    the extensions the server announced, which are one of four texts;
    after HELO it carries none.  When [checkEmail] holds no CR and no LF,
    every command written is exactly one line on the wire.  ([checkEmail]
    goes into RCPT TO unchecked: with a line break in it, that command puts
    more than one line on the wire.) *)
Theorem checkMailbox_lines_in_order
    (network : Network) (fromDomain fromEmail checkEmail : string)
    (servers : list string) (w : World) :
  exists delta,
    trace (snd (checkMailbox network fromDomain fromEmail checkEmail servers w))
    = delta ++ trace w
    /\ match fst (selectLoop network servers None w) with
       | None => forall k, written k delta = []
       | Some c0 =>
           (forall k, k <> fd (Smtp.Text c0) -> written k delta = [])
           /\ (exists params,
                 In params [""; " BODY=8BITMIME"; " SMTPUTF8";
                            " BODY=8BITMIME SMTPUTF8"]
                 /\ In (rev (written (fd (Smtp.Text c0)) delta))
                      [ [];
                        [EHLO fromDomain]; [HELO fromDomain];
                        [EHLO fromDomain; HELO fromDomain];
                        [EHLO fromDomain;
                         Smtp.mail_command fromEmail params];
                        [HELO fromDomain; MAIL_FROM fromEmail];
                        [EHLO fromDomain; HELO fromDomain;
                         MAIL_FROM fromEmail];
                        [EHLO fromDomain;
                         Smtp.mail_command fromEmail params;
                         RCPT_TO checkEmail];
                        [HELO fromDomain; MAIL_FROM fromEmail;
                         RCPT_TO checkEmail];
                        [EHLO fromDomain; HELO fromDomain;
                         MAIL_FROM fromEmail; RCPT_TO checkEmail] ])
           /\ (Smtp.has_CR_or_LF checkEmail = false ->
               forall line,
                 In line (written (fd (Smtp.Text c0)) delta) ->
                 wire_lines line = [wire_text line])
       end.
Proof.
  destruct (checkMailbox_delta network fromDomain fromEmail checkEmail servers w)
    as (delta & T & _ & _ & L & P).
  exists delta. split; [exact T|].
  destruct (fst (selectLoop network servers None w)) as [c0|]; [|exact L].
  destruct L as [L1 L2]. split; [exact L1|]. split; [exact L2|].
  intros Hr line Hin. apply In_written in Hin.
  apply one_line. exact (proj1 (P Hr _ _ Hin)).
Qed.

(** The sender declaration on a connection to a server that announces
    8BITMIME and SMTPUTF8. *)
Lemma checkMailbox_sender_declaration_parameters :
  let run :=
    checkMailbox
      (Sample.two_hosts (Sample.extended (Line 250 "ok")) Sample.down)
      "ironpeak.be" "test@ironpeak.be" "user@example.com" [Sample.mx1] start in
  rev (written 0 (trace (snd run)))
  = [EHLO "ironpeak.be";
     MAIL_FROM_ESMTP "test@ironpeak.be" " BODY=8BITMIME SMTPUTF8";
     RCPT_TO "user@example.com"]
  /\ map wire_text (rev (written 0 (trace (snd run))))
     = ["EHLO ironpeak.be";
        "MAIL FROM:<test@ironpeak.be> BODY=8BITMIME SMTPUTF8";
        "RCPT TO:<user@example.com>"]
  /\ fst run = None.
Proof. vm_compute. repeat split. Qed.

(** What the precondition on [checkEmail] is for.  An address whose local
    part holds line breaks passes [extractDomain], and the RCPT TO command
    for it reaches the wire as three lines, the second of them QUIT. *)
Lemma checkMailbox_recipient_is_not_validated :
  let CRLF := String CR (String LF EmptyString) in
  let checkEmail :=
    ("x>" ++ CRLF ++ "QUIT" ++ CRLF ++ "RCPT TO:<y@example.com")%string in
  extractDomain checkEmail = ("example.com", None)
  /\ wire_lines (RCPT_TO checkEmail)
     = ["RCPT TO:<x>"; "QUIT"; "RCPT TO:<y@example.com>"]
  /\ written 0
       (trace (snd (checkMailbox
                      (Sample.two_hosts (Sample.answering (Line 250 "ok"))
                                        Sample.down)
                      "ironpeak.be" "test@ironpeak.be" checkEmail
                      [Sample.mx1] start)))
     = [RCPT_TO checkEmail; MAIL_FROM "test@ironpeak.be"; EHLO "ironpeak.be"]
  /\ quit_on_wire
       (trace (snd (checkMailbox
                      (Sample.two_hosts (Sample.answering (Line 250 "ok"))
                                        Sample.down)
                      "ironpeak.be" "test@ironpeak.be" checkEmail
                      [Sample.mx1] start)))
     = true.
Proof. vm_compute. repeat split. Qed.

(** ** The connections [checkMailbox] leaves open *)

Lemma deferred_world c w :
  snd (deferred c w)
  = {| opened := opened w;
       closed := if is_closed (fd (Smtp.Text c)) w then closed w
                 else fd (Smtp.Text c) :: closed w;
       trace := Close_called (fd (Smtp.Text c)) :: trace w |}.
Proof.
  unfold deferred, bind, Smtp.Close, Textproto.Close.
  destruct (Close_closes (Smtp.Text c) w) as (H1 & _).
  assert (E : snd (Net.Close (Smtp.Text c) w)
              = {| opened := opened w;
                   closed := if is_closed (fd (Smtp.Text c)) w then closed w
                             else fd (Smtp.Text c) :: closed w;
                   trace := Close_called (fd (Smtp.Text c)) :: trace w |}).
  { unfold Net.Close. destruct (is_closed (fd (Smtp.Text c)) w); reflexivity. }
  destruct (Net.Close (Smtp.Text c) w) as [e w1]. simpl in *. subst w1.
  match goal with |- context [Smtp.Quit c ?w1] =>
    destruct (Quit_on_closed c w1 H1) as (c' & e' & ->) end.
  reflexivity.
Qed.

Section OpenDescriptors.

Lemma still_open_eq w : still_open w = open_in (closed w) (opened w).
Proof. reflexivity. Qed.

Lemma open_in_fresh cl n :
  (forall k, In k cl -> k < n) ->
  length (open_in cl (S n)) = S (length (open_in cl n)).
Proof.
  intros H. unfold open_in. rewrite seq_S, filter_app, length_app. simpl.
  assert (E : existsb (Nat.eqb n) cl = false).
  { apply not_true_is_false. intros X. apply existsb_exists in X.
    destruct X as (k & Hin & Hk). apply Nat.eqb_eq in Hk.
    specialize (H k Hin). lia. }
  rewrite E. simpl. lia.
Qed.

Lemma open_in_fresh_closed cl n :
  length (open_in (n :: cl) (S n)) = length (open_in cl n).
Proof.
  unfold open_in. rewrite seq_S, filter_app, length_app. simpl.
  rewrite Nat.eqb_refl. simpl. rewrite Nat.add_0_r. f_equal.
  apply filter_ext_in. intros c Hc. apply in_seq in Hc.
  destruct (Nat.eqb_spec c n); [lia | reflexivity].
Qed.

Lemma filter_without (k : nat) (f : nat -> bool) (l : list nat) :
  NoDup l -> In k l -> f k = true ->
  length (filter (fun c => negb (Nat.eqb c k || negb (f c))) l) + 1
  = length (filter f l).
Proof.
  induction l as [|a l IH]; simpl; [contradiction|].
  intros ND [->|Hin] Fk.
  - rewrite Nat.eqb_refl, Fk. simpl.
    inversion ND as [|? ? Hnot _]; subst.
    rewrite Nat.add_1_r. f_equal. f_equal.
    apply filter_ext_in. intros c Hc.
    destruct (Nat.eqb_spec c k) as [->|]; [contradiction|].
    simpl. now rewrite negb_involutive.
  - inversion ND as [|? ? Hnot ND']; subst.
    destruct (Nat.eqb_spec a k) as [->|]; [contradiction|]. simpl.
    rewrite negb_involutive.
    destruct (f a); simpl; rewrite <- (IH ND' Hin Fk); reflexivity.
Qed.

Lemma open_in_close cl n k :
  k < n -> existsb (Nat.eqb k) cl = false ->
  length (open_in (k :: cl) n) + 1 = length (open_in cl n).
Proof.
  intros Hk E. unfold open_in.
  rewrite <- (filter_without k (fun c => negb (existsb (Nat.eqb c) cl))
                (seq 0 n)).
  - f_equal. f_equal. apply filter_ext. intros c. simpl.
    now rewrite negb_involutive.
  - apply seq_NoDup.
  - apply in_seq. lia.
  - now rewrite E.
Qed.

End OpenDescriptors.

(** [smtp.NewClient] on a connection that was just opened, with the world
    it leaves. *)
Lemma NewClient_fresh_world network mx w :
  well_formed w ->
  let conn := {| fd := opened w; peer := network (host_port mx smtpPort) |} in
  let w1 := {| opened := S (opened w); closed := closed w;
               trace := Dialed (host_port mx smtpPort) (Some (opened w))
                        :: trace w |} in
  if greets network mx then
    exists c, Smtp.NewClient conn mx w1 = (Some c, None, w1)
              /\ Smtp.Text c = conn
  else
    exists e, Smtp.NewClient conn mx w1
              = (None, Some e,
                 {| opened := S (opened w); closed := opened w :: closed w;
                    trace := Close_called (opened w)
                             :: Dialed (host_port mx smtpPort)
                                       (Some (opened w)) :: trace w |}).
Proof.
  intros [WC WT] conn w1.
  assert (F : forall e : error,
             exists e',
               bind (Textproto.Close conn)
                    (fun _ => ret (@None Smtp.Client, Some e)) w1
               = (None, Some e',
                  {| opened := S (opened w); closed := opened w :: closed w;
                     trace := Close_called (opened w)
                              :: Dialed (host_port mx smtpPort)
                                        (Some (opened w)) :: trace w |})).
  { intros e. unfold bind, ret, Textproto.Close, Net.Close, is_closed. simpl.
    rewrite (fresh_is_open w (closed w) WC). eexists. reflexivity. }
  unfold Smtp.NewClient. unfold bind at 1.
  unfold Textproto.ReadResponse, bind, ret, Net.Read, is_closed. simpl.
  rewrite (fresh_is_open w (closed w) WC), (fresh_not_written w (trace w) WT).
  unfold greets. fold w1. fold conn.
  destruct (greeting (network (host_port mx smtpPort)))
    as [e|line|line|code msg]; try apply F.
  unfold Textproto.parseCodeLine.
  destruct (Z.eqb_spec code 220) as [->|Hne].
  - simpl. eexists. split; reflexivity.
  - destruct (Z.ltb_spec code 100); [apply F|].
    simpl. destruct (Z.eqb_spec code 220); [contradiction|]. apply F.
Qed.

(** From a well-formed world the loop ends in a well-formed world, with a
    client whose connection is open, and with one more open connection for
    every candidate that yields a session. *)
Lemma selectLoop_connections network servers :
  forall acc w,
    well_formed w ->
    (forall c, acc = Some c ->
               fd (Smtp.Text c) < opened w
               /\ is_closed (fd (Smtp.Text c)) w = false) ->
    well_formed (snd (selectLoop network servers acc w))
    /\ (forall c, fst (selectLoop network servers acc w) = Some c ->
                  fd (Smtp.Text c) < opened (snd (selectLoop network servers acc w))
                  /\ is_closed (fd (Smtp.Text c))
                       (snd (selectLoop network servers acc w)) = false)
    /\ length (still_open (snd (selectLoop network servers acc w)))
       = length (still_open w)
         + length (filter (yields_session network) servers).
Proof.
  induction servers as [|mx rest IH]; intros acc w W A.
  - simpl. split; [exact W|]. split; [exact A | lia].
  - rewrite selectLoop_cons. simpl filter. unfold yields_session at 1, accepts.
    destruct (refuses (network (host_port mx smtpPort))) as [e|] eqn:R.
    + simpl andb. cbv iota.
      match goal with |- context [selectLoop network rest acc ?w'] =>
        destruct (IH acc w') as (I1 & I2 & I3) end.
      * destruct W as [WC WT]. split; simpl; [exact WC|].
        intros k line [Hk|[Hk|Hk]]; try discriminate; eauto.
      * exact A.
      * split; [exact I1|]. split; [exact I2 | exact I3].
    + cbv zeta. simpl andb.
      pose proof (NewClient_fresh_world network mx w W) as N.
      destruct (NewClient_fresh network mx w W) as (W1 & N').
      cbv zeta in N.
      destruct (greets network mx).
      * destruct N as (c & -> & TC).
        match goal with |- context [selectLoop network rest ?a ?w'] =>
          destruct (IH a w' W1) as (I1 & I2 & I3) end.
        -- intros c' H. injection H as <-. rewrite TC. simpl. split; [lia|].
           unfold is_closed. simpl. destruct W as [WC _].
           apply (fresh_is_open w (closed w) WC).
        -- split; [exact I1|]. split; [exact I2|].
           rewrite I3. rewrite !still_open_eq. simpl opened. simpl closed.
           destruct W as [WC _]. rewrite (open_in_fresh _ _ WC). simpl. lia.
      * destruct N as (e & ->). destruct N' as (e' & w2 & _ & _).
        match goal with |- context [selectLoop network rest None ?w'] =>
          destruct (IH None w') as (I1 & I2 & I3) end.
        -- destruct W as [WC WT]. split; simpl.
           ++ intros k [<-|Hk]; [lia|]. specialize (WC k Hk). lia.
           ++ intros k line [Hk|[Hk|[Hk|Hk]]]; try discriminate.
              specialize (WT k line Hk). lia.
        -- intros c H. discriminate.
        -- split; [exact I1|]. split; [exact I2|].
           rewrite I3. rewrite !still_open_eq. simpl opened. simpl closed.
           rewrite open_in_fresh_closed. reflexivity.
Qed.

(** The world [checkMailbox] leaves when the loop has selected a client:
    the world after the loop, with the events of the session and the one
    [Close] call on top, and with the client's connection closed. *)
Lemma checkMailbox_selected_world
    network fromDomain fromEmail checkEmail servers w c0 w1 :
  selectLoop network servers None w = (Some c0, w1) ->
  exists d2,
    snd (checkMailbox network fromDomain fromEmail checkEmail servers w)
    = {| opened := opened w1;
         closed := if is_closed (fd (Smtp.Text c0)) w1 then closed w1
                   else fd (Smtp.Text c0) :: closed w1;
         trace := Close_called (fd (Smtp.Text c0)) :: d2 ++ trace w1 |}
    /\ Forall (session_event (fd (Smtp.Text c0))) d2.
Proof.
  intros S.
  rewrite (checkMailbox_selected _ fromDomain fromEmail checkEmail _ _ _ _ S).
  simpl.
  pose proof (selectLoop_fresh_client network servers None w c0) as F.
  rewrite S in F. destruct (F eq_refl) as [?|[D E]]; [discriminate|].
  destruct (session_world c0 fromDomain fromEmail checkEmail w1 D E)
    as (p & _ & d2 & W2 & EV & _).
  pose proof (session_Text c0 fromDomain fromEmail checkEmail w1) as TX.
  destruct (session c0 fromDomain fromEmail checkEmail w1) as [[c e] w2].
  simpl in *. subst w2. exists d2. split; [|exact EV].
  rewrite deferred_world, TX.
  destruct (pushes_fields d2 w1) as (PO & PC & PT).
  unfold is_closed. rewrite PO, PC, PT. reflexivity.
Qed.

(** X9. [checkMailbox] keeps the world well formed: every descriptor it
    closes or writes to is one that was handed out. *)
Theorem checkMailbox_well_formed
    (network : Network) (fromDomain fromEmail checkEmail : string)
    (servers : list string) (w : World) :
  well_formed w ->
  well_formed
    (snd (checkMailbox network fromDomain fromEmail checkEmail servers w)).
Proof.
  intros W.
  destruct (selectLoop_connections network servers None w W)
    as (W1 & I2 & _); [discriminate|].
  destruct (selectLoop network servers None w) as [[c0|] w1] eqn:S;
    simpl in W1, I2.
  - destruct (checkMailbox_selected_world network fromDomain fromEmail
                checkEmail servers w c0 w1 S) as (d2 & -> & EV).
    destruct (I2 c0 eq_refl) as [L O]. rewrite O.
    destruct W1 as [WC WT]. split; simpl.
    + intros k [<-|Hk]; [exact L | exact (WC k Hk)].
    + intros k line [Hk|Hk]; [discriminate|].
      apply in_app_or in Hk. destruct Hk as [Hk|Hk]; [|exact (WT k line Hk)].
      rewrite Forall_forall in EV.
      destruct (EV _ Hk) as [[l X]|[a X]]; [|discriminate].
      injection X as -> _. exact L.
  - unfold checkMailbox, bind. rewrite S. exact W1.
Qed.

Lemma checkMailbox_well_formed_witness :
  well_formed
    (snd (checkMailbox
            (Sample.two_hosts (Sample.answering (Line 250 "ok"))
                              Sample.unwilling)
            "ironpeak.be" "test@ironpeak.be" "user@example.com"
            [Sample.mx2; Sample.mx1] start)).
Proof.
  apply checkMailbox_well_formed.
  split; simpl; intros; contradiction.
Defined.

(** X10. The connections [checkMailbox] leaves open.  Started in a
    well-formed world, it ends with one more open connection for every
    candidate that yielded a session (accepted the connection and greeted
    with 220), less the one connection of the client it used, if the loop
    ended with a client: every other session's connection stays open. *)
Theorem checkMailbox_open_connections
    (network : Network) (fromDomain fromEmail checkEmail : string)
    (servers : list string) (w : World) :
  well_formed w ->
  length (still_open
            (snd (checkMailbox network fromDomain fromEmail checkEmail
                               servers w)))
  + match fst (selectLoop network servers None w) with
    | Some _ => 1
    | None => 0
    end
  = length (still_open w)
    + length (filter (yields_session network) servers).
Proof.
  intros W.
  destruct (selectLoop_connections network servers None w W)
    as (_ & I2 & I3); [discriminate|].
  destruct (selectLoop network servers None w) as [[c0|] w1] eqn:S;
    simpl in I2, I3 |- *.
  - destruct (checkMailbox_selected_world network fromDomain fromEmail
                checkEmail servers w c0 w1 S) as (d2 & -> & _).
    destruct (I2 c0 eq_refl) as [L O]. rewrite O, <- I3.
    rewrite !still_open_eq. simpl opened. simpl closed.
    apply open_in_close; [exact L | exact O].
  - unfold checkMailbox, bind. rewrite S. simpl. rewrite I3. lia.
Qed.

Lemma checkMailbox_open_connections_witness :
  length (still_open
            (snd (checkMailbox
                    (Sample.two_hosts (Sample.answering (Line 250 "ok"))
                                      (Sample.answering (Line 250 "ok")))
                    "ironpeak.be" "test@ironpeak.be" "user@example.com"
                    [Sample.mx1; Sample.mx2; Sample.mx1] start)))
  + 1
  = 0 + 3.
Proof.
  apply (checkMailbox_open_connections
           (Sample.two_hosts (Sample.answering (Line 250 "ok"))
                             (Sample.answering (Line 250 "ok")))
           "ironpeak.be" "test@ironpeak.be" "user@example.com"
           [Sample.mx1; Sample.mx2; Sample.mx1] start).
  split; simpl; intros; contradiction.
Defined.

(** ** What a verdict says about the server's reply *)

(** After a line was written to an open connection, the response read is
    the server's answer to that line. *)
Lemma ReadResponse_after_write conn line expectCode w :
  is_closed (fd conn) w = false ->
  fst (Textproto.ReadResponse conn expectCode (push (Sent (fd conn) line) w))
  = match answers (peer conn) line with
    | ReadFailed e => (0%Z, "", Some e)
    | ShortLine line =>
        (0%Z, "", Some (ProtocolError ("short response: " ++ line)))
    | BadCode line =>
        (0%Z, "", Some (ProtocolError ("invalid response code: " ++ line)))
    | Line code message => Textproto.parseCodeLine code message expectCode
    end.
Proof.
  intros O. rewrite ReadResponse_of_Read. unfold Net.Read.
  unfold is_closed in *. simpl. rewrite O, Nat.eqb_refl. reflexivity.
Qed.

Lemma session_sound c d f r w :
  Smtp.didHello c = false ->
  Smtp.helloError c = None ->
  let res := snd (fst (session c d f r w)) in
  res = None \/ res = Some does_not_exist \/ res = Some blacklisted ->
  exists code message,
    answers (peer (Smtp.Text c)) (RCPT_TO r) = Line code message
    /\ ((res = None /\ 250 <= code <= 259)
        \/ (res = Some does_not_exist /\ code = 550)
        \/ (res = Some blacklisted /\ code = 554))%Z.
Proof.
  intros D E.
  destruct (Hello_world c d w D E) as (c1 & e1 & w1 & EH & T1 & S1 & _).
  unfold session, bind. rewrite EH.
  destruct e1 as [e|];
    [simpl; intros [H|[H|H]]; discriminate|].
  destruct (S1 eq_refl) as [D1 HE1].
  destruct (Mail_world c1 f w1 D1 HE1) as (c2 & e2 & w2 & EM & T2 & _).
  rewrite EM.
  destruct e2 as [e|];
    [simpl; intros [H|[H|H]]; discriminate|].
  unfold Textproto.Cmd.
  destruct (Write_world (Smtp.Text c2) (RCPT_TO r) w2) as [[-> O] | [e ->]];
    [|simpl; intros [H|[H|H]]; discriminate].
  pose proof (ReadResponse_after_write (Smtp.Text c2) (RCPT_TO r) 25 w2 O) as R.
  pose proof (ReadResponse_world (Smtp.Text c2) 25
                (push (Sent (fd (Smtp.Text c2)) (RCPT_TO r)) w2)) as RW.
  destruct (Textproto.ReadResponse (Smtp.Text c2) 25
              (push (Sent (fd (Smtp.Text c2)) (RCPT_TO r)) w2))
    as [[[code msg] err] w4].
  simpl in R, RW. subst w4. rewrite T2, T1 in R.
  assert (V : forall w',
             let res := fst (verdict code err w') in
             res = None \/ res = Some does_not_exist \/ res = Some blacklisted ->
             exists code' message,
               answers (peer (Smtp.Text c)) (RCPT_TO r) = Line code' message
               /\ ((res = None /\ 250 <= code' <= 259)
                   \/ (res = Some does_not_exist /\ code' = 550)
                   \/ (res = Some blacklisted /\ code' = 554))%Z).
  { intros w'. unfold verdict.
    destruct (answers (peer (Smtp.Text c)) (RCPT_TO r))
      as [e|line|line|cd m].
    - injection R as -> _ ->. simpl.
      intros [H|[H|H]]; discriminate.
    - injection R as -> _ ->. simpl.
      intros [H|[H|H]]; discriminate.
    - injection R as -> _ ->. simpl.
      intros [H|[H|H]]; discriminate.
    - assert (code = cd /\
              (err = None -> 100 <= cd /\ cd / 10 = 25)%Z) as [-> P].
      { revert R. unfold Textproto.parseCodeLine.
        destruct (Z.ltb_spec cd 100);
          [intros X; injection X as -> _ ->;
           split; [reflexivity | discriminate]|].
        simpl.
        destruct (Z.eqb_spec (cd / 10) 25); simpl;
          intros X; injection X as -> _ ->;
          (split; [reflexivity|]); [auto | discriminate]. }
      destruct (Z.eqb_spec cd 554) as [->|N1].
      { simpl. intros _. exists 554%Z, m. split; [reflexivity|]. auto. }
      destruct (Z.eqb_spec cd 550) as [->|N2].
      { simpl. intros _. exists 550%Z, m. split; [reflexivity|]. auto. }
      destruct (Z.eqb_spec cd 250) as [->|N3].
      { simpl. intros _. exists 250%Z, m. split; [reflexivity|].
        left. split; [reflexivity | lia]. }
      unfold bind, logf, emit, ret. destruct err as [e|]; simpl.
      + intros [H|[H|H]]; discriminate.
      + intros _. exists cd, m. split; [reflexivity|]. left.
        split; [reflexivity|]. destruct (P eq_refl) as [P1 P2].
        pose proof (Z.div_mod cd 10 ltac:(lia)) as DM.
        pose proof (Z.mod_pos_bound cd 10 ltac:(lia)). lia. }
  specialize (V (push (Sent (fd (Smtp.Text c2)) (RCPT_TO r)) w2)).
  destruct (verdict code err (push (Sent (fd (Smtp.Text c2)) (RCPT_TO r)) w2))
    as [res w5].
  exact V.
Qed.

(** X11. What the three results that stand for a verdict say about the
    server.  [checkMailbox] returns nil only if the loop selected a client
    and the server on that connection answered RCPT TO for the address
    under test with a code from 250 to 259; it returns "email does not
    seem to exist" only if that answer had code 550, and "appears our IP is
    blacklisted" only if it had code 554. *)
Theorem checkMailbox_verdicts_sound
    (network : Network) (fromDomain fromEmail checkEmail : string)
    (servers : list string) (w : World) :
  let res :=
    fst (checkMailbox network fromDomain fromEmail checkEmail servers w) in
  res = None \/ res = Some does_not_exist \/ res = Some blacklisted ->
  exists c0 w1 code message,
    selectLoop network servers None w = (Some c0, w1)
    /\ answers (peer (Smtp.Text c0)) (RCPT_TO checkEmail) = Line code message
    /\ ((res = None /\ 250 <= code <= 259)
        \/ (res = Some does_not_exist /\ code = 550)
        \/ (res = Some blacklisted /\ code = 554))%Z.
Proof.
  pose proof (selectLoop_fresh_client network servers None w) as F.
  destruct (selectLoop network servers None w) as [[c0|] w1] eqn:S.
  - rewrite (checkMailbox_selected _ fromDomain fromEmail checkEmail _ _ _ _ S).
    simpl. intros H.
    destruct (F c0 eq_refl) as [?|[D E]]; [discriminate|].
    destruct (session_sound c0 fromDomain fromEmail checkEmail w1 D E H)
      as (code & message & A & V).
    exists c0, w1, code, message. auto.
  - unfold checkMailbox, bind. rewrite S. simpl.
    intros [H|[H|H]]; discriminate.
Qed.

Lemma checkMailbox_verdicts_sound_witness :
  exists c0 w1 code message,
    selectLoop
      (Sample.two_hosts (Sample.answering (Line 550 "no such user"))
                        Sample.down)
      [Sample.mx1] None start = (Some c0, w1)
    /\ answers (peer (Smtp.Text c0)) (RCPT_TO "user@example.com")
       = Line code message
    /\ ((Some does_not_exist = None /\ 250 <= code <= 259)
        \/ (Some does_not_exist = Some does_not_exist /\ code = 550)
        \/ (Some does_not_exist = Some blacklisted /\ code = 554))%Z.
Proof.
  apply (checkMailbox_verdicts_sound
           (Sample.two_hosts (Sample.answering (Line 550 "no such user"))
                             Sample.down)
           "ironpeak.be" "test@ironpeak.be" "user@example.com"
           [Sample.mx1] start).
  right. left. reflexivity.
Defined.

(** ** [main] *)

Section Main.

Variables (LookupMX : Resolver) (network : Network).

(** One address: what is dialled, and the one report made. *)
Lemma checkOne_delta n email w :
  exists delta,
    trace (snd (checkOne LookupMX network n email w)) = delta ++ trace w
    /\ dials delta = rev (targets LookupMX email)
    /\ length (reports delta) = 1.
Proof.
  unfold checkOne, targets.
  destruct (extractDomain email) as [emailDomain [e|]].
  - eexists [_]. unfold bind, logf, emit, ret.
    destruct (n =? 1)%nat; simpl; auto.
  - destruct (lookupMX LookupMX emailDomain) as [mxServers [e|]].
    + eexists [_]. unfold bind, logf, emit, ret.
      destruct (n =? 1)%nat; simpl; auto.
    + destruct mxServers as [|mx rest].
      * eexists [_]. unfold bind, logf, emit, ret. simpl.
        destruct (n =? 1)%nat; simpl; auto.
      * change (length (mx :: rest) =? 0)%nat with false. cbv iota.
        destruct (checkMailbox_delta network "ironpeak.be" "test@ironpeak.be"
                    email (mx :: rest) w) as (d & T & HD & HR & _).
        unfold bind, logf, emit, ret.
        destruct (checkMailbox network "ironpeak.be" "test@ironpeak.be"
                    email (mx :: rest) w) as [[e|] w1]; simpl in T.
        -- eexists (_ :: d).
           destruct (n =? 1)%nat; simpl; rewrite T;
             (split; [reflexivity|]);
             (split; [exact HD|]); unfold reports in *; simpl;
             now rewrite HR.
        -- eexists (_ :: d). simpl. rewrite T.
           split; [reflexivity|]. split; [exact HD|].
           unfold reports in *. simpl. now rewrite HR.
Qed.

(** With a count other than one, no address makes the loop exit. *)
Lemma checkOne_goes_on n email w :
  n <> 1 -> fst (checkOne LookupMX network n email w) = None.
Proof.
  intros H. apply Nat.eqb_neq in H. unfold checkOne. rewrite H.
  destruct (extractDomain email) as [emailDomain [e|]]; [reflexivity|].
  destruct (lookupMX LookupMX emailDomain) as [mxServers [e|]]; [reflexivity|].
  destruct (length mxServers =? 0)%nat; [reflexivity|].
  unfold bind.
  destruct (checkMailbox network "ironpeak.be" "test@ironpeak.be" email
              mxServers w) as [[e|] w1]; reflexivity.
Qed.

Lemma mainLoop_delta n emails :
  n <> 1 ->
  forall w,
    fst (mainLoop LookupMX network n emails w) = None
    /\ exists delta,
         trace (snd (mainLoop LookupMX network n emails w)) = delta ++ trace w
         /\ dials delta = rev (flat_map (targets LookupMX) emails)
         /\ length (reports delta) = length emails.
Proof.
  intros H. induction emails as [|email rest IH]; intros w.
  - split; [reflexivity|]. exists []. auto.
  - simpl mainLoop. unfold bind.
    pose proof (checkOne_goes_on n email w H) as G.
    destruct (checkOne_delta n email w) as (d1 & T1 & D1 & R1).
    destruct (checkOne LookupMX network n email w) as [r w1].
    simpl in G, T1. subst r.
    destruct (IH w1) as (N & d2 & T2 & D2 & R2).
    split; [exact N|]. exists (d2 ++ d1).
    split; [rewrite T2, T1; apply app_assoc|].
    rewrite dials_app, reports_app, length_app, D1, D2, R1, R2. simpl.
    rewrite rev_app_distr. split; [reflexivity | lia].
Qed.

(** What a run of [main] on at least one address adds to the trace. *)
Lemma main_delta prog emails w :
  emails <> [] ->
  exists delta,
    trace (snd (main LookupMX network (prog :: emails) w)) = delta ++ trace w
    /\ dials delta = rev (flat_map (targets LookupMX) emails)
    /\ length (reports delta) = length emails.
Proof.
  intros NE. unfold main.
  destruct emails as [|email rest]; [contradiction|].
  change (length (email :: rest) =? 0)%nat with false. cbv iota. unfold bind.
  destruct rest as [|email2 rest].
  - simpl mainLoop. unfold bind.
    destruct (checkOne_delta 1 email w) as (d1 & T1 & D1 & R1).
    destruct (checkOne LookupMX network 1 email w) as [[code|] w1];
      simpl in T1 |- *; exists d1; rewrite app_nil_r; auto.
  - destruct (mainLoop_delta (length (email :: email2 :: rest))
                (email :: email2 :: rest) ltac:(simpl; lia) w)
      as (_ & d & T & D & R).
    destruct (mainLoop LookupMX network (length (email :: email2 :: rest))
                (email :: email2 :: rest) w) as [r w1].
    simpl in T. exists d. auto.
Qed.

(** X12. Every address given to [main] is handled, in order: [main] makes
    exactly one report (a log entry at level error or info) per address,
    and the hosts it dials are, in order, the MX hosts of each address's
    domain in turn; an address without a domain, or whose lookup fails or
    finds no host, has nothing dialled. *)
Theorem main_handles_every_address (prog : string) (emails : list string)
    (w : World) :
  emails <> [] ->
  exists delta,
    trace (snd (main LookupMX network (prog :: emails) w)) = delta ++ trace w
    /\ rev (dials delta) = flat_map (targets LookupMX) emails
    /\ length (reports delta) = length emails.
Proof.
  intros NE. destruct (main_delta prog emails w NE) as (d & T & D & R).
  exists d. split; [exact T|]. split; [|exact R].
  rewrite D. apply rev_involutive.
Qed.

(** X13. Given two or more addresses, [main] never calls [os.Exit]: it
    returns, so the exit status is 0 whatever the checks found. *)
Theorem main_many_returns (prog : string) (emails : list string) (w : World) :
  2 <= length emails ->
  fst (main LookupMX network (prog :: emails) w) = Returned
  /\ exit_code (fst (main LookupMX network (prog :: emails) w)) = 0%Z.
Proof.
  intros H. unfold main.
  destruct (Nat.eqb_spec (length emails) 0) as [E|_]; [lia|].
  unfold bind.
  destruct (mainLoop_delta (length emails) emails ltac:(lia) w) as (N & _).
  destruct (mainLoop LookupMX network (length emails) emails w) as [r w1].
  simpl in N. subst r. split; reflexivity.
Qed.

(** X14. Given one address, [main] exits with status 0 or 1, and with 0
    exactly when the address has a domain, the lookup succeeds, and either
    no mail server is found or [checkMailbox] returns nil. *)
Theorem main_single_exit_code (prog email : string) (w : World) :
  let code := exit_code (fst (main LookupMX network [prog; email] w)) in
  (code = 0 \/ code = 1)%Z
  /\ (code = 0%Z <->
      exists emailDomain mxServers,
        extractDomain email = (emailDomain, None)
        /\ lookupMX LookupMX emailDomain = (mxServers, None)
        /\ (mxServers = []
            \/ fst (checkMailbox network "ironpeak.be" "test@ironpeak.be"
                      email mxServers w) = None)).
Proof.
  unfold main. change (length [email] =? 0)%nat with false. cbv iota.
  simpl mainLoop. unfold bind, checkOne.
  destruct (extractDomain email) as [emailDomain [e|]] eqn:X0.
  - simpl. split; [auto|]. split; [discriminate|].
    intros (? & ? & X & _). discriminate.
  - destruct (lookupMX LookupMX emailDomain) as [mxServers [e|]] eqn:Y0.
    + simpl. split; [auto|]. split; [discriminate|].
      intros (? & ? & X & Y & _). injection X as <-.
      rewrite Y0 in Y. discriminate.
    + destruct mxServers as [|mx rest].
      * simpl. split; [auto|]. split; [|reflexivity].
        intros _. exists emailDomain, []. auto.
      * change (length (mx :: rest) =? 0)%nat with false. cbv iota.
        unfold bind.
        destruct (checkMailbox network "ironpeak.be" "test@ironpeak.be"
                    email (mx :: rest) w) as [[e|] w1] eqn:C; simpl.
        -- split; [auto|]. split; [discriminate|].
           intros (? & ? & X & Y & Z). injection X as <-.
           rewrite Y0 in Y. injection Y as <-.
           destruct Z as [Z|Z]; [discriminate|].
           rewrite C in Z. discriminate.
        -- split; [auto|]. split; [|reflexivity].
           intros _. exists emailDomain, (mx :: rest).
           rewrite C. auto.
Qed.

End Main.

Lemma main_handles_every_address_witness :
  exists delta,
    trace (snd (main (fun _ => ([ {| Host := Sample.mx1; Pref := 10 |} ], None))
                     (Sample.two_hosts (Sample.answering (Line 250 "ok"))
                                       Sample.down)
                     ["mailcheck"; "user@example.com"; "nobody"] start))
    = delta ++ trace start
    /\ rev (dials delta) = ["mx1.example.com:25"]
    /\ length (reports delta) = 2.
Proof.
  apply (main_handles_every_address
           (fun _ => ([ {| Host := Sample.mx1; Pref := 10 |} ], None))
           (Sample.two_hosts (Sample.answering (Line 250 "ok")) Sample.down)
           "mailcheck" ["user@example.com"; "nobody"] start).
  discriminate.
Defined.

Lemma main_many_returns_witness :
  fst (main (fun _ => ([], Some (NetError "no such host")))
            (Sample.two_hosts Sample.down Sample.down)
            ["mailcheck"; "user@example.com"; "nobody"] start) = Returned
  /\ exit_code
       (fst (main (fun _ => ([], Some (NetError "no such host")))
                  (Sample.two_hosts Sample.down Sample.down)
                  ["mailcheck"; "user@example.com"; "nobody"] start)) = 0%Z.
Proof.
  apply (main_many_returns
           (fun _ => ([], Some (NetError "no such host")))
           (Sample.two_hosts Sample.down Sample.down)
           "mailcheck" ["user@example.com"; "nobody"] start).
  simpl. lia.
Defined.

(** ** The values [checkMailbox] can return *)

(** X15. [checkMailbox] returns nil or one of six errors: the three it
    makes itself ("no working mail servers could be found", "appears our IP
    is blacklisted", "email does not seem to exist (or server blocks
    detection)") or an error of the library wrapped with one of the three
    messages "could not HELO smtp server", "could not MAIL FROM smtp
    server" and "smtp response error". *)
Theorem checkMailbox_result_shape
    (network : Network) (fromDomain fromEmail checkEmail : string)
    (servers : list string) (w : World) :
  let res :=
    fst (checkMailbox network fromDomain fromEmail checkEmail servers w) in
  res = None
  \/ res = Some no_working_servers
  \/ res = Some blacklisted
  \/ res = Some does_not_exist
  \/ exists cause,
       res = Some (Wrap cause "could not HELO smtp server")
       \/ res = Some (Wrap cause "could not MAIL FROM smtp server")
       \/ res = Some (Wrap cause "smtp response error").
Proof.
  destruct (selectLoop network servers None w) as [[c0|] w1] eqn:S.
  - rewrite (checkMailbox_selected _ fromDomain fromEmail checkEmail _ _ _ _ S).
    simpl. unfold session, bind.
    destruct (Smtp.Hello c0 fromDomain w1) as [[c1 [e|]] w2];
      [simpl; eauto 10|].
    destruct (Smtp.Mail c1 fromEmail w2) as [[c2 [e|]] w3];
      [simpl; eauto 10|].
    destruct (Textproto.Cmd (Smtp.Text c2) (RCPT_TO checkEmail) w3)
      as [[e|] w4]; [simpl; eauto 10|].
    destruct (Textproto.ReadResponse (Smtp.Text c2) 25 w4)
      as [[[code msg] err] w5].
    unfold verdict, bind, logf, emit, ret.
    destruct (code =? 554)%Z; [simpl; auto|].
    destruct (code =? 550)%Z; [simpl; auto|].
    destruct (code =? 250)%Z; [simpl; auto|].
    destruct err as [e|]; simpl; eauto 10.
  - unfold checkMailbox, bind. rewrite S. simpl. auto.
Qed.

(** ** Release and termination *)

(** X1. On every run that selects a client, from the start of
    [checkMailbox] to its end and whatever path the session takes: the
    connection of the selected client receives exactly one [Close] call and
    is closed at the end; the command QUIT is written on no connection (the
    deferred [Quit] finds the connection closed); when [checkEmail] holds
    no CR and no LF, no line that reaches the wire is a QUIT line; and the
    result is the one the session determined.  ([checkEmail] goes into RCPT
    TO unchecked: with line breaks in it the RCPT TO command can put a QUIT
    line on the wire.) *)
Theorem checkMailbox_release_and_termination
    (network : Network) (fromDomain fromEmail checkEmail : string)
    (servers : list string) (w0 : World) (c0 : Smtp.Client) (w1 : World) :
  selectLoop network servers None w0 = (Some c0, w1) ->
  exists delta,
    trace (snd (checkMailbox network fromDomain fromEmail checkEmail servers w0))
    = delta ++ trace w0
    /\ close_calls (fd (Smtp.Text c0)) delta = 1
    /\ sent is_termination delta = false
    /\ (Smtp.has_CR_or_LF checkEmail = false -> quit_on_wire delta = false)
    /\ is_closed (fd (Smtp.Text c0))
         (snd (checkMailbox network fromDomain fromEmail checkEmail servers w0))
       = true
    /\ fst (checkMailbox network fromDomain fromEmail checkEmail servers w0)
       = snd (fst (session c0 fromDomain fromEmail checkEmail w1)).
Proof.
  intros Hsel.
  destruct (checkMailbox_closes_once network fromDomain fromEmail checkEmail
              servers w0 c0 w1 Hsel) as (delta & T & C & Q & O & R).
  destruct (checkMailbox_delta network fromDomain fromEmail checkEmail servers w0)
    as (delta' & T' & _ & _ & _ & P).
  rewrite T in T'. apply app_inv_tail in T'. subst delta'.
  exists delta. split; [exact T|]. split; [exact C|]. split; [exact Q|].
  split; [|split; [exact O | exact R]].
  intros Hr. apply quit_on_wire_plain. exact (P Hr).
Qed.

Lemma checkMailbox_release_and_termination_witness :
  exists delta,
    trace (snd (checkMailbox
                  (Sample.two_hosts (Sample.answering (Line 250 "ok"))
                                    Sample.down)
                  "ironpeak.be" "test@ironpeak.be" "user@example.com"
                  [Sample.mx1] start))
    = delta ++ trace start
    /\ close_calls 0 delta = 1
    /\ sent is_termination delta = false
    /\ (Smtp.has_CR_or_LF "user@example.com" = false ->
        quit_on_wire delta = false)
    /\ is_closed 0
         (snd (checkMailbox
                 (Sample.two_hosts (Sample.answering (Line 250 "ok"))
                                   Sample.down)
                 "ironpeak.be" "test@ironpeak.be" "user@example.com"
                 [Sample.mx1] start))
       = true
    /\ fst (checkMailbox
              (Sample.two_hosts (Sample.answering (Line 250 "ok"))
                                Sample.down)
              "ironpeak.be" "test@ironpeak.be" "user@example.com"
              [Sample.mx1] start)
       = None.
Proof.
  exact (checkMailbox_release_and_termination
           (Sample.two_hosts (Sample.answering (Line 250 "ok")) Sample.down)
           "ironpeak.be" "test@ironpeak.be" "user@example.com"
           [Sample.mx1] start _ _ eq_refl).
Defined.
